(** * The systemd collector of node_exporter: collector/systemd_linux.go

    A shallow embedding of the collector and of the two libraries it talks
    to (the D-Bus client of go-systemd and the constant metrics of
    client_golang), followed by the properties of [Update]. *)

From Stdlib Require Import String Ascii List Arith Bool Lia.
From Stdlib Require Import Floats.PrimFloat.
Import ListNotations.
Local Open Scope string_scope.
Local Open Scope list_scope.

(** ** Go values *)

(** A Go [error]: [None] is [nil], [Some msg] an error whose [Error()] is [msg]. *)
Definition error := option string.

(** A Go pointer that may be [nil]. *)
Definition ptr (A : Type) := option A.

Definition float64 := float.

Module strings.

(** [strings.Join(elems, sep)] *)
Fixpoint Join (elems : list string) (sep : string) : string :=
  match elems with
  | [] => ""
  | [e] => e
  | e :: rest => e ++ sep ++ Join rest sep
  end.

End strings.

Module fmt.

(** [fmt.Sprintf] for a format with one [%s] verb and its one argument. *)
Fixpoint Sprintf (format : string) (a : string) : string :=
  match format with
  | EmptyString => EmptyString
  | String "%" (String "s" rest) => a ++ rest
  | String ch rest => String ch (Sprintf rest a)
  end.

(** [fmt.Errorf(format, err)]: the argument is the message of [err]. *)
Definition Errorf (format : string) (a : string) : error :=
  Some (Sprintf format a).

End fmt.

(** ** github.com/coreos/go-systemd/dbus

    The service manager is outside the program. Its behaviour is an oracle
    ([Manager]): whether the n-th connection attempt is accepted, and what
    is answered over the connection that attempt opened. The [Bus] keeps
    the oracle, the number of attempts made and the history of client
    calls, oldest first. A connection is named by the number of the attempt
    that opened it, so no two connections share a name. *)
Module dbus.

(** The fields of [dbus.UnitStatus] that are strings about the unit itself. *)
Record UnitStatus := {
  Name : string;
  Description : string;
  LoadState : string;
  ActiveState : string;
  SubState : string
}.

Definition Conn := nat.

Inductive Event :=
| Dialed (n : nat) (err : error)
| ListUnitsCalled (conn : Conn) (err : error)
| GetManagerPropertyCalled (conn : Conn) (name : string) (err : error)
| Closed (conn : Conn).

Record Manager := {
  accept : nat -> error;
  answer_ListUnits : Conn -> list UnitStatus * error;
  answer_GetManagerProperty : Conn -> string -> string * error
}.

Record Bus := {
  manager : Manager;
  dials : nat;
  history : list Event
}.

Definition record (e : Event) (b : Bus) : Bus :=
  {| manager := manager b; dials := dials b; history := history b ++ [e] |}.

(** [dbus.New()]: a connection, or [nil] and an error. *)
Definition New (b : Bus) : (ptr Conn * error) * Bus :=
  let n := dials b in
  let err := accept (manager b) n in
  let b' := {| manager := manager b; dials := S n;
               history := history b ++ [Dialed n err] |} in
  match err with
  | None => ((Some n, None), b')
  | Some e => ((None, Some e), b')
  end.

(** [conn.ListUnits()] *)
Definition ListUnits (conn : Conn) (b : Bus) : (list UnitStatus * error) * Bus :=
  let r := answer_ListUnits (manager b) conn in
  (r, record (ListUnitsCalled conn (snd r)) b).

(** [conn.GetManagerProperty(name)] *)
Definition GetManagerProperty (conn : Conn) (name : string) (b : Bus)
  : (string * error) * Bus :=
  let r := answer_GetManagerProperty (manager b) conn name in
  (r, record (GetManagerPropertyCalled conn name (snd r)) b).

(** [conn.Close()] *)
Definition Close (conn : Conn) (b : Bus) : unit * Bus :=
  (tt, record (Closed conn) b).

(** The client calls made between bus [b] and the later bus [b']. *)
Definition since (b b' : Bus) : list Event :=
  skipn (length (history b)) (history b').

End dbus.

(** ** github.com/prometheus/client_golang/prometheus *)
Module prometheus.

Record Desc := {
  fqName : string;
  help : string;
  variableLabels : list string;
  constLabels : list (string * string)
}.

Inductive ValueType := CounterValue | GaugeValue | UntypedValue.

(** A constant metric: what [NewConstMetric] was given. *)
Record Metric := {
  desc : Desc;
  valType : ValueType;
  val : float64;
  labelValues : list string
}.

(** [prometheus.BuildFQName(namespace, subsystem, name)] *)
Definition BuildFQName (namespace subsystem name : string) : string :=
  if String.eqb name "" then ""
  else if negb (String.eqb namespace "") && negb (String.eqb subsystem "")
  then strings.Join [namespace; subsystem; name] "_"
  else if negb (String.eqb namespace "")
  then strings.Join [namespace; name] "_"
  else if negb (String.eqb subsystem "")
  then strings.Join [subsystem; name] "_"
  else name.

(** [prometheus.NewDesc(fqName, help, variableLabels, constLabels)] *)
Definition NewDesc (fqName help : string) (variableLabels : list string)
           (constLabels : list (string * string)) : Desc :=
  {| fqName := fqName; help := help;
     variableLabels := variableLabels; constLabels := constLabels |}.

Definition errInconsistentCardinality : string := "inconsistent label cardinality".

(** [prometheus.NewConstMetric(desc, valueType, value, labelValues...)]:
    refused when the label values do not match the descriptor's labels. *)
Definition NewConstMetric (d : Desc) (valueType : ValueType) (value : float64)
           (labelValues : list string) : ptr Metric * error :=
  if Nat.eqb (length (variableLabels d)) (length labelValues)
  then (Some {| desc := d; valType := valueType; val := value;
                labelValues := labelValues |}, None)
  else (None, Some errInconsistentCardinality).

End prometheus.

(** ** The program state and the monad of Go statements

    [self] is the collector the receiver [c] points to, [ch] the samples
    sent on the channel so far (oldest first), [bus] the service manager,
    and [log] every send and every client call in the order they happened. *)

Record systemdCollector := {
  unitDesc : prometheus.Desc;
  systemRunningDesc : prometheus.Desc
}.

Inductive Action :=
| Sent (m : prometheus.Metric)
| Called (e : dbus.Event).

Record State := {
  self : systemdCollector;
  ch : list prometheus.Metric;
  bus : dbus.Bus;
  log : list Action
}.

Inductive Outcome (A : Type) :=
| Returned (a : A)
| Panicked (reason : string).
Arguments Returned {A} a.
Arguments Panicked {A} reason.

Definition Go (A : Type) := State -> Outcome A * State.

Definition ret {A} (a : A) : Go A := fun s => (Returned a, s).

Definition bind {A B} (m : Go A) (k : A -> Go B) : Go B :=
  fun s =>
    match m s with
    | (Returned a, s') => k a s'
    | (Panicked r, s') => (Panicked r, s')
    end.

Declare Scope go_scope.
Delimit Scope go_scope with go.
Notation "x <- m ;; k" := (bind m (fun x => k))
  (at level 61, m at next level, right associativity) : go_scope.
Notation "' p <- m ;; k" := (bind m (fun x => let p := x in k))
  (at level 61, p pattern, m at next level, right associativity) : go_scope.
Notation "m ;; k" := (bind m (fun _ => k))
  (at level 61, right associativity) : go_scope.
Local Open Scope go_scope.

Definition panic {A} (reason : string) : Go A := fun s => (Panicked reason, s).

(** Reading the receiver: [c.unitDesc] is [d <- field unitDesc]. *)
Definition field {A} (proj : systemdCollector -> A) : Go A :=
  fun s => (Returned (proj (self s)), s).

(** [ch <- m]; the framework's receiver takes every sample. *)
Definition send (m : prometheus.Metric) : Go unit :=
  fun s => (Returned tt, {| self := self s; ch := ch s ++ [m]; bus := bus s;
                            log := log s ++ [Sent m] |}).

(** A call into the D-Bus client. *)
Definition call {A} (f : dbus.Bus -> A * dbus.Bus) : Go A :=
  fun s => let (a, b) := f (bus s) in
           (Returned a, {| self := self s; ch := ch s; bus := b;
                           log := log s ++ map Called (dbus.since (bus s) b) |}).

(** A method call through a connection pointer; [nil] panics. *)
Definition method {A} (conn : ptr dbus.Conn)
           (f : dbus.Conn -> dbus.Bus -> A * dbus.Bus) : Go A :=
  match conn with
  | Some c => call (f c)
  | None => panic "invalid memory address or nil pointer dereference"
  end.

(** [for _, x := range xs { body }] *)
Fixpoint range {A} (xs : list A) (body : A -> Go unit) : Go unit :=
  match xs with
  | [] => ret tt
  | x :: rest => body x ;; range rest body
  end.

(** [prometheus.MustNewConstMetric]: panics where [NewConstMetric] fails. *)
Definition MustNewConstMetric (d : prometheus.Desc) (valueType : prometheus.ValueType)
           (value : float64) (labelValues : list string) : Go prometheus.Metric :=
  match prometheus.NewConstMetric d valueType value labelValues with
  | (Some m, None) => ret m
  | (_, Some e) => panic e
  | (None, None) => panic "invalid memory address or nil pointer dereference"
  end.

(** ** collector/systemd_linux.go *)

Definition unitStatesName : list string :=
  ["active"; "activating"; "deactivating"; "inactive"; "failed"].

Definition subsystem : string := "systemd".

(** [NewSystemdCollector]; [Namespace] is the package constant of
    collector.go, a parameter here. *)
Definition NewSystemdCollector (Namespace : string) : systemdCollector * error :=
  let unitDesc := prometheus.NewDesc
    (prometheus.BuildFQName Namespace subsystem "unit_state")
    "Systemd unit" ["name"; "state"] [] in
  let systemRunningDesc := prometheus.NewDesc
    (prometheus.BuildFQName Namespace subsystem "system_running")
    "Whether the system is operational (see 'systemctl is-system-running')"
    [] [] in
  ({| unitDesc := unitDesc; systemRunningDesc := systemRunningDesc |}, None).

Definition collectUnitStatusMetrics (units : list dbus.UnitStatus) : Go unit :=
  range units (fun unit =>
    range unitStatesName (fun stateName =>
      let isActive :=
        if String.eqb stateName (dbus.ActiveState unit) then 1%float else 0%float in
      d <- field unitDesc ;;
      m <- MustNewConstMetric d prometheus.GaugeValue isActive
             [dbus.Name unit; stateName] ;;
      send m)).

(** The raw string literal of the source: the word between two double quotes. *)
Definition running_literal : string :=
  String "034" ("running" ++ String "034" EmptyString).

Definition collectSystemState (systemState : string) : Go unit :=
  let isSystemRunning :=
    if String.eqb systemState running_literal then 1%float else 0%float in
  d <- field systemRunningDesc ;;
  m <- MustNewConstMetric d prometheus.GaugeValue isSystemRunning [] ;;
  send m.

Definition listUnits : Go (list dbus.UnitStatus * error) :=
  '(conn, err) <- call dbus.New ;;
  match err with
  | Some e => ret ([], fmt.Errorf "couldn't get dbus connection: %s" e)
  | None =>
      '(units, err) <- method conn dbus.ListUnits ;;
      method conn dbus.Close ;;
      ret (units, err)
  end.

Definition getSystemState : Go (string * error) :=
  '(conn, err) <- call dbus.New ;;
  match err with
  | Some e => ret ("", fmt.Errorf "couldn't get dbus connection: %s" e)
  | None =>
      '(state, err) <- method conn (fun c => dbus.GetManagerProperty c "SystemState") ;;
      method conn dbus.Close ;;
      ret (state, err)
  end.

Definition Update : Go error :=
  '(units, err) <- listUnits ;;
  match err with
  | Some e => ret (fmt.Errorf "couldn't get units states: %s" e)
  | None =>
      collectUnitStatusMetrics units ;;
      '(systemState, err) <- getSystemState ;;
      match err with
      | Some e => ret (fmt.Errorf "couldn't get system state: %s" e)
      | None =>
          collectSystemState systemState ;;
          ret None
      end
  end.

(** ** Observations *)

(** The state after more samples were sent, and after the bus moved on. *)
Definition emit (ms : list prometheus.Metric) (s : State) : State :=
  {| self := self s; ch := ch s ++ ms; bus := bus s;
     log := log s ++ map Sent ms |}.

Definition on_bus (b : dbus.Bus) (s : State) : State :=
  {| self := self s; ch := ch s; bus := b;
     log := log s ++ map Called (dbus.since (bus s) b) |}.

(** What a run that started in [s] and stopped in [s'] sent and called. *)
Definition emitted (s s' : State) : list prometheus.Metric :=
  skipn (length (ch s)) (ch s').

Definition calls (s s' : State) : list dbus.Event :=
  skipn (length (dbus.history (bus s))) (dbus.history (bus s')).

(** The answers of the service manager that one [Update] started on bus
    [b] can see: the next two connection attempts and the one query made
    over each. *)
Definition first_dial (b : dbus.Bus) : error :=
  dbus.accept (dbus.manager b) (dbus.dials b).

Definition units_reply (b : dbus.Bus) : list dbus.UnitStatus * error :=
  dbus.answer_ListUnits (dbus.manager b) (dbus.dials b).

Definition second_dial (b : dbus.Bus) : error :=
  dbus.accept (dbus.manager b) (S (dbus.dials b)).

Definition state_reply (b : dbus.Bus) : string * error :=
  dbus.answer_GetManagerProperty (dbus.manager b) (S (dbus.dials b)) "SystemState".

(** The bus after the listing step, when the first connection was accepted. *)
Definition after_listing (b : dbus.Bus) : dbus.Bus :=
  let n := dbus.dials b in
  {| dbus.manager := dbus.manager b; dbus.dials := S n;
     dbus.history := dbus.history b ++
       [dbus.Dialed n None; dbus.ListUnitsCalled n (snd (units_reply b)); dbus.Closed n] |}.

(** The bus after a refused connection attempt. *)
Definition after_refusal (e : string) (b : dbus.Bus) : dbus.Bus :=
  let n := dbus.dials b in
  {| dbus.manager := dbus.manager b; dbus.dials := S n;
     dbus.history := dbus.history b ++ [dbus.Dialed n (Some e)] |}.

(** The bus after the system-state step, when its connection was accepted. *)
Definition after_state (b : dbus.Bus) : dbus.Bus :=
  let n := dbus.dials b in
  {| dbus.manager := dbus.manager b; dbus.dials := S n;
     dbus.history := dbus.history b ++
       [dbus.Dialed n None;
        dbus.GetManagerPropertyCalled n "SystemState"
          (snd (dbus.answer_GetManagerProperty (dbus.manager b) n "SystemState"));
        dbus.Closed n] |}.

(** The five samples of one unit, in the order the inner loop sends them. *)
Definition unit_state_samples (d : prometheus.Desc) (unit : dbus.UnitStatus)
  : list prometheus.Metric :=
  map (fun stateName =>
         {| prometheus.desc := d; prometheus.valType := prometheus.GaugeValue;
            prometheus.val :=
              if String.eqb stateName (dbus.ActiveState unit)
              then 1%float else 0%float;
            prometheus.labelValues := [dbus.Name unit; stateName] |})
      unitStatesName.

Definition system_running_sample (d : prometheus.Desc) (systemState : string)
  : prometheus.Metric :=
  {| prometheus.desc := d; prometheus.valType := prometheus.GaugeValue;
     prometheus.val :=
       if String.eqb systemState running_literal then 1%float else 0%float;
     prometheus.labelValues := [] |}.

(** The state once the listing has answered [units] and their samples are
    sent: the first connection is closed, the second not yet opened. *)
Definition listed (units : list dbus.UnitStatus) (s : State) : State :=
  emit (flat_map (unit_state_samples (unitDesc (self s))) units)
       (on_bus (after_listing (bus s)) s).

(** A sample whose value is 1.0, by the comparison of float64. *)
Definition is_one (m : prometheus.Metric) : bool :=
  PrimFloat.eqb (prometheus.val m) 1%float.

Definition ones (ms : list prometheus.Metric) : nat :=
  length (filter is_one ms).

(** The descriptors take the label values the two call sites pass. *)
Definition well_formed (c : systemdCollector) : Prop :=
  length (prometheus.variableLabels (unitDesc c)) = 2 /\
  length (prometheus.variableLabels (systemRunningDesc c)) = 0.

(** A service manager for examples: it refuses the attempts listed in
    [refused], answers [units] and [state] and fails the queries as told. *)
Definition example_manager (refused : list nat) (units : list dbus.UnitStatus)
           (units_err : error) (state : string) (state_err : error) : dbus.Manager :=
  {| dbus.accept := fun n =>
       if existsb (Nat.eqb n) refused then Some "connection refused" else None;
     dbus.answer_ListUnits := fun _ => (units, units_err);
     dbus.answer_GetManagerProperty := fun _ _ => (state, state_err) |}.

Definition example_state (m : dbus.Manager) : State :=
  {| self := fst (NewSystemdCollector "node"); ch := [];
     bus := {| dbus.manager := m; dbus.dials := 0; dbus.history := [] |};
     log := [] |}.

Definition example_unit (name state : string) : dbus.UnitStatus :=
  {| dbus.Name := name; dbus.Description := ""; dbus.LoadState := "loaded";
     dbus.ActiveState := state; dbus.SubState := "" |}.

Definition example_units : list dbus.UnitStatus :=
  [example_unit "sshd.service" "active"; example_unit "cron.service" "failed"].

(** Frame condition on a statement: the part [proj] of the state is the
    same after every run, also after one that panics. *)
Definition keeps {X A} (proj : State -> X) (m : Go A) : Prop :=
  forall s, proj (snd (m s)) = proj s.

(** Connections held (opened and not yet closed): the effect of one client
    call, the connections held after a sequence of calls, and the largest
    number held at any point of it. *)
Definition hold (e : dbus.Event) (open : list dbus.Conn) : list dbus.Conn :=
  match e with
  | dbus.Dialed n None => n :: open
  | dbus.Closed c => remove Nat.eq_dec c open
  | _ => open
  end.

Fixpoint held (tr : list dbus.Event) (open : list dbus.Conn) : list dbus.Conn :=
  match tr with
  | [] => open
  | e :: rest => held rest (hold e open)
  end.

Fixpoint peak (tr : list dbus.Event) (open : list dbus.Conn) : nat :=
  match tr with
  | [] => length open
  | e :: rest => Nat.max (length open) (peak rest (hold e open))
  end.

(** The connections over which a query was made, one entry per query. *)
Fixpoint queried (tr : list dbus.Event) : list dbus.Conn :=
  match tr with
  | [] => []
  | dbus.ListUnitsCalled c _ :: rest => c :: queried rest
  | dbus.GetManagerPropertyCalled c _ _ :: rest => c :: queried rest
  | _ :: rest => queried rest
  end.

(** Scoped acquisition: the calls are a sequence of refused attempts and
    of blocks open, one query, close, all three on the connection the block
    opened. *)
Fixpoint scoped (tr : list dbus.Event) : bool :=
  match tr with
  | [] => true
  | dbus.Dialed _ (Some _) :: rest => scoped rest
  | dbus.Dialed n None :: dbus.ListUnitsCalled c _ :: dbus.Closed c' :: rest =>
      Nat.eqb n c && Nat.eqb n c' && scoped rest
  | dbus.Dialed n None :: dbus.GetManagerPropertyCalled c _ _ :: dbus.Closed c' :: rest =>
      Nat.eqb n c && Nat.eqb n c' && scoped rest
  | _ => false
  end.

(** The client calls of one [Update] that began when [n] connection
    attempts had been made: one of four sequences. *)
Definition cycle_calls (n : nat) (tr : list dbus.Event) : Prop :=
  (exists e, tr = [dbus.Dialed n (Some e)]) \/
  (exists err, tr = [dbus.Dialed n None; dbus.ListUnitsCalled n err; dbus.Closed n]) \/
  (exists e, tr = [dbus.Dialed n None; dbus.ListUnitsCalled n None; dbus.Closed n;
                   dbus.Dialed (S n) (Some e)]) \/
  (exists err, tr = [dbus.Dialed n None; dbus.ListUnitsCalled n None; dbus.Closed n;
                     dbus.Dialed (S n) None;
                     dbus.GetManagerPropertyCalled (S n) "SystemState" err;
                     dbus.Closed (S n)]).

(** [m] is the unit-state sample of [unit] for [stateName]. *)
Definition unit_state_sample (d : prometheus.Desc) (unit : dbus.UnitStatus)
           (stateName : string) (m : prometheus.Metric) : Prop :=
  prometheus.desc m = d /\
  prometheus.valType m = prometheus.GaugeValue /\
  prometheus.labelValues m = [dbus.Name unit; stateName] /\
  (stateName = dbus.ActiveState unit -> prometheus.val m = 1%float) /\
  (stateName <> dbus.ActiveState unit -> prometheus.val m = 0%float).

(** [block] holds one unit-state sample of [unit] per known state name, in
    the declared order of the names. *)
Definition unit_block (d : prometheus.Desc) (unit : dbus.UnitStatus)
           (block : list prometheus.Metric) : Prop :=
  Forall2 (unit_state_sample d unit) unitStatesName block.

(** [m] is a system-running sample. *)
Definition system_sample (d : prometheus.Desc) (m : prometheus.Metric) : Prop :=
  prometheus.desc m = d /\
  prometheus.valType m = prometheus.GaugeValue /\
  prometheus.labelValues m = [].

(** Two buses on which one [Update] gets the same answers. *)
Definition same_responses (b1 b2 : dbus.Bus) : Prop :=
  first_dial b1 = first_dial b2 /\
  units_reply b1 = units_reply b2 /\
  second_dial b1 = second_dial b2 /\
  state_reply b1 = state_reply b2.

(** One way among many to bring a state string to a normal form, which
    the collector does not apply: drop the ASCII white space around it and
    put its ASCII letters in lower case. *)
Definition ascii_space (c : ascii) : bool :=
  let n := nat_of_ascii c in
  Nat.eqb n 32 || (Nat.leb 9 n && Nat.leb n 13).

Definition ascii_lower (c : ascii) : ascii :=
  let n := nat_of_ascii c in
  if Nat.leb 65 n && Nat.leb n 90 then ascii_of_nat (n + 32) else c.

Fixpoint lower_case (s : string) : string :=
  match s with
  | EmptyString => EmptyString
  | String c rest => String (ascii_lower c) (lower_case rest)
  end.

Fixpoint trim_left (s : string) : string :=
  match s with
  | EmptyString => EmptyString
  | String c rest => if ascii_space c then trim_left rest else s
  end.

Fixpoint trim_right (s : string) : string :=
  match s with
  | EmptyString => EmptyString
  | String c rest =>
      match trim_right rest with
      | EmptyString => if ascii_space c then EmptyString else String c EmptyString
      | kept => String c kept
      end
  end.

Definition trim_and_lower (s : string) : string :=
  lower_case (trim_right (trim_left s)).

(** Whether the unit's [ActiveState] is one of the names of [unitStatesName]. *)
Definition known_state (unit : dbus.UnitStatus) : bool :=
  existsb (fun stateName => String.eqb stateName (dbus.ActiveState unit))
          unitStatesName.

(** The two fields of a unit the collector reads. *)
Definition read_fields (unit : dbus.UnitStatus) : string * string :=
  (dbus.Name unit, dbus.ActiveState unit).

(** What a run that started in [s] and stopped in [s'] did: its sends and
    its client calls, in the order they happened. *)
Definition acts (s s' : State) : list Action :=
  skipn (length (log s)) (log s').

(** The client calls, and the samples, among a sequence of actions. *)
Fixpoint called (l : list Action) : list dbus.Event :=
  match l with
  | [] => []
  | Called e :: rest => e :: called rest
  | Sent _ :: rest => called rest
  end.

Fixpoint sent (l : list Action) : list prometheus.Metric :=
  match l with
  | [] => []
  | Sent m :: rest => m :: sent rest
  | Called _ :: rest => sent rest
  end.

(** Scoped acquisition over a whole run: every accepted connection attempt
    is followed at once by one query on the connection it opened, and that
    query at once by the close of the same connection; samples are sent
    only between such blocks, never while a connection is open. *)
Fixpoint scoped_run (l : list Action) : bool :=
  match l with
  | [] => true
  | Sent _ :: rest => scoped_run rest
  | Called (dbus.Dialed _ (Some _)) :: rest => scoped_run rest
  | Called (dbus.Dialed n None) :: Called (dbus.ListUnitsCalled c _) ::
    Called (dbus.Closed c') :: rest =>
      Nat.eqb n c && Nat.eqb n c' && scoped_run rest
  | Called (dbus.Dialed n None) :: Called (dbus.GetManagerPropertyCalled c _ _) ::
    Called (dbus.Closed c') :: rest =>
      Nat.eqb n c && Nat.eqb n c' && scoped_run rest
  | _ => false
  end.

(** The actions of one [Update] in the order the source makes them, for a
    collector [c], a bus on which [n] connection attempts were made, and the
    four answers of the service manager: the outcome of the first attempt,
    the answer to [ListUnits], the outcome of the second attempt and the
    answer to [GetManagerProperty]. *)
Definition cycle_acts (c : systemdCollector) (n : nat)
           (dial1 : error) (reply1 : list dbus.UnitStatus * error)
           (dial2 : error) (reply2 : string * error) : list Action :=
  match dial1 with
  | Some e => [Called (dbus.Dialed n (Some e))]
  | None =>
      [Called (dbus.Dialed n None);
       Called (dbus.ListUnitsCalled n (snd reply1));
       Called (dbus.Closed n)] ++
      match snd reply1 with
      | Some _ => []
      | None =>
          map Sent (flat_map (unit_state_samples (unitDesc c)) (fst reply1)) ++
          Called (dbus.Dialed (S n) dial2) ::
          match dial2 with
          | Some _ => []
          | None =>
              [Called (dbus.GetManagerPropertyCalled (S n) "SystemState"
                         (snd reply2));
               Called (dbus.Closed (S n))] ++
              match snd reply2 with
              | Some _ => []
              | None =>
                  [Sent (system_running_sample (systemRunningDesc c) (fst reply2))]
              end
          end
      end
  end.

(** A statement that only sends: it leaves the bus alone, and what it adds
    to the channel is what it adds to the log, also when it panics. *)
Definition sends_only {A} (m : Go A) : Prop :=
  forall s,
    bus (snd (m s)) = bus s /\
    exists ms, ch (snd (m s)) = ch s ++ ms /\ log (snd (m s)) = log s ++ map Sent ms.

(** ** Strings and floats *)

Lemma append_empty (s : string) : (s ++ "")%string = s.
Proof. induction s as [|a s IH]; simpl; [reflexivity | now rewrite IH]. Qed.

Lemma Errorf_connection e :
  fmt.Errorf "couldn't get dbus connection: %s" e =
  Some ("couldn't get dbus connection: " ++ e)%string.
Proof. unfold fmt.Errorf; simpl; now rewrite append_empty. Qed.

Lemma Errorf_units e :
  fmt.Errorf "couldn't get units states: %s" e =
  Some ("couldn't get units states: " ++ e)%string.
Proof. unfold fmt.Errorf; simpl; now rewrite append_empty. Qed.

Lemma Errorf_state e :
  fmt.Errorf "couldn't get system state: %s" e =
  Some ("couldn't get system state: " ++ e)%string.
Proof. unfold fmt.Errorf; simpl; now rewrite append_empty. Qed.

Lemma one_is_not_zero : 1%float <> 0%float.
Proof.
  intro H.
  assert (E : PrimFloat.eqb 1 1 = PrimFloat.eqb 0 1) by (rewrite H at 1; reflexivity).
  vm_compute in E. discriminate E.
Qed.

(** ** Frame conditions of the statements *)

Section Frames.

Context {X : Type} (proj : State -> X).

Lemma keeps_ret {A} (a : A) : keeps proj (ret a).
Proof. intro s; reflexivity. Qed.

Lemma keeps_panic {A} r : keeps proj (@panic A r).
Proof. intro s; reflexivity. Qed.

Lemma keeps_field {A} (p : systemdCollector -> A) : keeps proj (field p).
Proof. intro s; reflexivity. Qed.

Lemma keeps_bind {A B} (m : Go A) (k : A -> Go B) :
  keeps proj m -> (forall a, keeps proj (k a)) -> keeps proj (bind m k).
Proof.
  intros Hm Hk s. unfold bind. specialize (Hm s).
  destruct (m s) as [[a|r] s1]; simpl in *; [rewrite Hk | ]; assumption.
Qed.

Lemma keeps_range {A} (xs : list A) (body : A -> Go unit) :
  (forall x, keeps proj (body x)) -> keeps proj (range xs body).
Proof.
  intros Hb. induction xs as [|x xs IH]; simpl.
  - apply keeps_ret.
  - apply keeps_bind; [apply Hb | intros _; exact IH].
Qed.

Lemma keeps_MustNewConstMetric d vt v lvs :
  keeps proj (MustNewConstMetric d vt v lvs).
Proof.
  unfold MustNewConstMetric.
  destruct (prometheus.NewConstMetric d vt v lvs) as [[m|] [e|]];
    first [apply keeps_ret | apply keeps_panic].
Qed.

End Frames.

Lemma send_keeps_self m : keeps self (send m).
Proof. intro s; reflexivity. Qed.

Lemma send_keeps_bus m : keeps bus (send m).
Proof. intro s; reflexivity. Qed.

Lemma call_keeps_self {A} (f : dbus.Bus -> A * dbus.Bus) : keeps self (call f).
Proof. intro s; unfold call; destruct (f (bus s)); reflexivity. Qed.

Lemma call_keeps_ch {A} (f : dbus.Bus -> A * dbus.Bus) : keeps ch (call f).
Proof. intro s; unfold call; destruct (f (bus s)); reflexivity. Qed.

Lemma method_keeps_self {A} conn (f : dbus.Conn -> dbus.Bus -> A * dbus.Bus) :
  keeps self (method conn f).
Proof. destruct conn; [apply call_keeps_self | apply keeps_panic]. Qed.

Lemma method_keeps_ch {A} conn (f : dbus.Conn -> dbus.Bus -> A * dbus.Bus) :
  keeps ch (method conn f).
Proof. destruct conn; [apply call_keeps_ch | apply keeps_panic]. Qed.

Create HintDb frame.
#[local] Hint Resolve keeps_ret keeps_panic keeps_field keeps_MustNewConstMetric
  send_keeps_self send_keeps_bus call_keeps_self call_keeps_ch
  method_keeps_self method_keeps_ch : frame.

(** Walks down a statement, one frame lemma per construct. *)
Ltac frame :=
  repeat first
    [ progress intros
    | apply keeps_bind
    | apply keeps_range
    | match goal with |- keeps _ (let '(_, _) := ?p in _) => destruct p end
    | match goal with |- keeps _ (match ?e with Some _ => _ | None => _ end) =>
        destruct e end
    | solve [auto with frame] ].

Lemma collectUnitStatusMetrics_keeps_self units :
  keeps self (collectUnitStatusMetrics units).
Proof. unfold collectUnitStatusMetrics. frame. Qed.

Lemma collectUnitStatusMetrics_keeps_bus units :
  keeps bus (collectUnitStatusMetrics units).
Proof. unfold collectUnitStatusMetrics. frame. Qed.

Lemma collectSystemState_keeps_self st : keeps self (collectSystemState st).
Proof. unfold collectSystemState. frame. Qed.

Lemma collectSystemState_keeps_bus st : keeps bus (collectSystemState st).
Proof. unfold collectSystemState. frame. Qed.

Lemma listUnits_keeps_self : keeps self listUnits.
Proof. unfold listUnits. frame. Qed.

Lemma listUnits_keeps_ch : keeps ch listUnits.
Proof. unfold listUnits. frame. Qed.

Lemma getSystemState_keeps_self : keeps self getSystemState.
Proof. unfold getSystemState. frame. Qed.

Lemma getSystemState_keeps_ch : keeps ch getSystemState.
Proof. unfold getSystemState. frame. Qed.

Lemma Update_keeps_self : keeps self Update.
Proof.
  unfold Update. frame;
    auto using listUnits_keeps_self, getSystemState_keeps_self,
      collectUnitStatusMetrics_keeps_self, collectSystemState_keeps_self.
Qed.

(** ** What each statement does *)

Lemma emit_nil s : emit [] s = s.
Proof. destruct s; unfold emit; simpl; now rewrite !app_nil_r. Qed.

Lemma emit_app ms ms' s : emit (ms ++ ms') s = emit ms' (emit ms s).
Proof. unfold emit; simpl; now rewrite map_app, !app_assoc. Qed.

Lemma skipn_length_app {A} (l t : list A) : skipn (length l) (l ++ t) = t.
Proof. induction l as [|a l IH]; simpl; [reflexivity | exact IH]. Qed.

(** Brings the log of a state reached by several calls to one list. *)
Ltac one_log :=
  unfold dbus.since; cbn [dbus.history dbus.record bus log self ch];
  rewrite ?skipn_length_app; cbn [map]; rewrite <- ?app_assoc; cbn [app].

Lemma emitted_emit ms s s' : ch s' = ch s ++ ms -> emitted s s' = ms.
Proof. intros H; unfold emitted; rewrite H; apply skipn_length_app. Qed.

Lemma calls_history tr s s' :
  dbus.history (bus s') = dbus.history (bus s) ++ tr -> calls s s' = tr.
Proof. intros H; unfold calls; rewrite H; apply skipn_length_app. Qed.

(** The loop over the state names sends one sample per name, in order. *)
Lemma range_stateNames_run (unit : dbus.UnitStatus) (names : list string) :
  forall s,
    length (prometheus.variableLabels (unitDesc (self s))) = 2 ->
    range names (fun stateName =>
      let isActive :=
        if String.eqb stateName (dbus.ActiveState unit) then 1%float else 0%float in
      d <- field unitDesc ;;
      m <- MustNewConstMetric d prometheus.GaugeValue isActive
             [dbus.Name unit; stateName] ;;
      send m) s
    = (Returned tt,
       emit (map (fun stateName =>
                    {| prometheus.desc := unitDesc (self s);
                       prometheus.valType := prometheus.GaugeValue;
                       prometheus.val :=
                         if String.eqb stateName (dbus.ActiveState unit)
                         then 1%float else 0%float;
                       prometheus.labelValues := [dbus.Name unit; stateName] |})
                 names) s).
Proof.
  induction names as [|name names IH]; intros s H.
  - simpl. now rewrite emit_nil.
  - cbn [range map].
    unfold bind at 1. unfold bind at 1. unfold field at 1.
    unfold MustNewConstMetric at 1. unfold prometheus.NewConstMetric.
    cbn [length]. rewrite H. cbn [Nat.eqb ret bind send].
    unfold bind at 1. cbn [ret send].
    rewrite IH by exact H.
    unfold emit; cbn [self ch bus log map]. now rewrite <- !app_assoc.
Qed.

Lemma collectUnitStatusMetrics_run units :
  forall s,
    length (prometheus.variableLabels (unitDesc (self s))) = 2 ->
    collectUnitStatusMetrics units s =
    (Returned tt, emit (flat_map (unit_state_samples (unitDesc (self s))) units) s).
Proof.
  unfold collectUnitStatusMetrics.
  induction units as [|unit units IH]; intros s H.
  - simpl. now rewrite emit_nil.
  - cbn [range flat_map]. unfold bind at 1.
    rewrite range_stateNames_run by exact H.
    rewrite IH by exact H.
    now rewrite emit_app.
Qed.

Lemma collectSystemState_run systemState s :
  length (prometheus.variableLabels (systemRunningDesc (self s))) = 0 ->
  collectSystemState systemState s =
  (Returned tt,
   emit [system_running_sample (systemRunningDesc (self s)) systemState] s).
Proof.
  intros H. unfold collectSystemState, bind, field, MustNewConstMetric,
    prometheus.NewConstMetric.
  cbn [length]. rewrite H. reflexivity.
Qed.

Lemma listUnits_refused s e :
  first_dial (bus s) = Some e ->
  listUnits s =
  (Returned ([], Some ("couldn't get dbus connection: " ++ e)%string),
   on_bus (after_refusal e (bus s)) s).
Proof.
  unfold first_dial; intros H.
  unfold listUnits, bind, call, dbus.New. rewrite H. cbn [ret].
  now rewrite Errorf_connection.
Qed.

Lemma listUnits_accepted s :
  first_dial (bus s) = None ->
  listUnits s = (Returned (units_reply (bus s)), on_bus (after_listing (bus s)) s).
Proof.
  unfold first_dial; intros H.
  unfold listUnits, bind, call, method, dbus.New, units_reply, after_listing, on_bus.
  rewrite H. cbn. unfold units_reply.
  destruct (dbus.answer_ListUnits (dbus.manager (bus s)) (dbus.dials (bus s)))
    as [units err]; cbn.
  unfold ret. one_log.
  unfold dbus.record; cbn [dbus.history dbus.manager dbus.dials].
  rewrite <- ?app_assoc. reflexivity.
Qed.

Lemma getSystemState_refused s e :
  first_dial (bus s) = Some e ->
  getSystemState s =
  (Returned ("", Some ("couldn't get dbus connection: " ++ e)%string),
   on_bus (after_refusal e (bus s)) s).
Proof.
  unfold first_dial; intros H.
  unfold getSystemState, bind, call, dbus.New. rewrite H. cbn [ret].
  now rewrite Errorf_connection.
Qed.

Lemma getSystemState_accepted s :
  first_dial (bus s) = None ->
  getSystemState s =
  (Returned (dbus.answer_GetManagerProperty (dbus.manager (bus s))
               (dbus.dials (bus s)) "SystemState"),
   on_bus (after_state (bus s)) s).
Proof.
  unfold first_dial; intros H.
  unfold getSystemState, bind, call, method, dbus.New, after_state, on_bus.
  rewrite H. cbn.
  destruct (dbus.answer_GetManagerProperty (dbus.manager (bus s))
              (dbus.dials (bus s)) "SystemState") as [state err]; cbn.
  unfold ret. one_log.
  unfold dbus.record; cbn [dbus.history dbus.manager dbus.dials].
  rewrite <- ?app_assoc. reflexivity.
Qed.

(** ** The five runs of [Update] *)

Lemma Update_units_refused s e :
  first_dial (bus s) = Some e ->
  Update s =
  (Returned (Some ("couldn't get units states: " ++
                   "couldn't get dbus connection: " ++ e)%string),
   on_bus (after_refusal e (bus s)) s).
Proof.
  intros H. unfold Update. unfold bind at 1.
  rewrite (listUnits_refused s e H). cbn [ret].
  now rewrite Errorf_units.
Qed.

Lemma Update_units_failed s e :
  first_dial (bus s) = None ->
  snd (units_reply (bus s)) = Some e ->
  Update s =
  (Returned (Some ("couldn't get units states: " ++ e)%string),
   on_bus (after_listing (bus s)) s).
Proof.
  intros H He. unfold Update. unfold bind at 1.
  rewrite (listUnits_accepted s H).
  destruct (units_reply (bus s)) as [units err]; cbn in He; subst err.
  cbn [ret]. now rewrite Errorf_units.
Qed.

Lemma Update_listed s units :
  well_formed (self s) ->
  first_dial (bus s) = None ->
  units_reply (bus s) = (units, None) ->
  Update s =
  ('(systemState, err) <- getSystemState ;;
   match err with
   | Some e => ret (fmt.Errorf "couldn't get system state: %s" e)
   | None => collectSystemState systemState ;; ret None
   end)
    (listed units s).
Proof.
  intros [Hu _] H Hr. unfold Update. unfold bind at 1.
  rewrite (listUnits_accepted s H), Hr.
  unfold bind at 1.
  now rewrite collectUnitStatusMetrics_run by exact Hu.
Qed.

Lemma Update_state_refused s units e :
  well_formed (self s) ->
  first_dial (bus s) = None ->
  units_reply (bus s) = (units, None) ->
  second_dial (bus s) = Some e ->
  Update s =
  (Returned (Some ("couldn't get system state: " ++
                   "couldn't get dbus connection: " ++ e)%string),
   on_bus (after_refusal e (after_listing (bus s))) (listed units s)).
Proof.
  intros Hw H Hr H2. rewrite (Update_listed s units Hw H Hr).
  unfold bind at 1.
  rewrite (getSystemState_refused _ e) by exact H2.
  cbn [ret]. now rewrite Errorf_state.
Qed.

Lemma Update_state_failed s units e :
  well_formed (self s) ->
  first_dial (bus s) = None ->
  units_reply (bus s) = (units, None) ->
  second_dial (bus s) = None ->
  snd (state_reply (bus s)) = Some e ->
  Update s =
  (Returned (Some ("couldn't get system state: " ++ e)%string),
   on_bus (after_state (after_listing (bus s))) (listed units s)).
Proof.
  intros Hw H Hr H2 He. rewrite (Update_listed s units Hw H Hr).
  unfold bind at 1.
  rewrite getSystemState_accepted by exact H2.
  change (bus (listed units s)) with (after_listing (bus s)).
  unfold state_reply in He. cbn [after_listing dbus.manager dbus.dials].
  destruct (dbus.answer_GetManagerProperty _ _ _) as [state err];
    cbn in He; subst err.
  cbn [ret]. now rewrite Errorf_state.
Qed.

Lemma Update_succeeds s units systemState :
  well_formed (self s) ->
  first_dial (bus s) = None ->
  units_reply (bus s) = (units, None) ->
  second_dial (bus s) = None ->
  state_reply (bus s) = (systemState, None) ->
  Update s =
  (Returned None,
   {| self := self s;
      ch := ch s ++
            (flat_map (unit_state_samples (unitDesc (self s))) units ++
             [system_running_sample (systemRunningDesc (self s)) systemState]);
      bus := after_state (after_listing (bus s));
      log := log (on_bus (after_state (after_listing (bus s))) (listed units s)) ++
             [Sent (system_running_sample (systemRunningDesc (self s)) systemState)]
   |}).
Proof.
  intros Hw H Hr H2 Hs. rewrite (Update_listed s units Hw H Hr).
  unfold bind at 1.
  rewrite getSystemState_accepted by exact H2.
  change (bus (listed units s)) with (after_listing (bus s)).
  unfold state_reply in Hs. cbn [after_listing dbus.manager dbus.dials].
  rewrite Hs.
  unfold bind at 1.
  rewrite collectSystemState_run by (cbn [self]; exact (proj2 Hw)).
  cbn [ret]. unfold emit at 1. cbn [self ch bus log map on_bus listed emit].
  now rewrite <- app_assoc.
Qed.

Lemma NewSystemdCollector_well_formed Namespace :
  well_formed (fst (NewSystemdCollector Namespace)) /\
  snd (NewSystemdCollector Namespace) = None.
Proof. repeat split. Qed.

(** ** The samples of one unit *)

Lemma unit_state_samples_block d unit : unit_block d unit (unit_state_samples d unit).
Proof.
  unfold unit_block, unit_state_samples.
  induction unitStatesName as [|name names IH]; cbn [map]; constructor; [|exact IH].
  unfold unit_state_sample; cbn.
  destruct (String.eqb_spec name (dbus.ActiveState unit)); repeat split; tauto.
Qed.

Lemma unit_block_length d unit block : unit_block d unit block -> length block = 5.
Proof. intros H. apply Forall2_length in H. now rewrite <- H. Qed.

Lemma unit_state_samples_known d unit :
  In (dbus.ActiveState unit) unitStatesName -> ones (unit_state_samples d unit) = 1.
Proof.
  unfold unit_state_samples, ones. intros H.
  cbn in H. repeat (destruct H as [H|H]; [rewrite <- H; reflexivity|]).
  contradiction.
Qed.

Lemma unit_state_samples_unknown d unit :
  ~ In (dbus.ActiveState unit) unitStatesName ->
  Forall (fun m => prometheus.val m = 0%float) (unit_state_samples d unit) /\
  ones (unit_state_samples d unit) = 0.
Proof.
  intros H.
  assert (E : forall name, In name unitStatesName ->
                           String.eqb name (dbus.ActiveState unit) = false).
  { intros name Hin. apply String.eqb_neq. intros ->. exact (H Hin). }
  unfold unit_state_samples, ones.
  induction unitStatesName as [|name names IH]; cbn [map filter].
  - split; [constructor | reflexivity].
  - destruct IH as [IH1 IH2].
    + intros Hin. apply H. now right.
    + intros n Hn. apply E. now right.
    + unfold is_one at 1. cbn [prometheus.val]. rewrite (E name) by now left.
      split; [constructor; [reflexivity | exact IH1] | exact IH2].
Qed.

Lemma blocks_of_units d units :
  Forall2 (unit_block d) units (map (unit_state_samples d) units).
Proof.
  induction units as [|unit units IH]; cbn [map]; constructor;
    [apply unit_state_samples_block | exact IH].
Qed.

Lemma flat_map_blocks d units :
  flat_map (unit_state_samples d) units = concat (map (unit_state_samples d) units).
Proof. apply flat_map_concat_map. Qed.

Lemma flat_map_blocks_length d units :
  length (flat_map (unit_state_samples d) units) = 5 * length units.
Proof.
  induction units as [|unit units IH]; [reflexivity|].
  cbn [flat_map]. rewrite length_app, IH. cbn [length unit_state_samples]. simpl. lia.
Qed.

Lemma blocks_one_hot d units :
  Forall2 (fun unit block =>
             unit_block d unit block /\
             length block = 5 /\
             (In (dbus.ActiveState unit) unitStatesName -> ones block = 1))
          units (map (unit_state_samples d) units).
Proof.
  induction units as [|unit units IH]; cbn [map]; constructor; [|exact IH].
  split; [apply unit_state_samples_block|].
  split; [reflexivity | apply unit_state_samples_known].
Qed.

(** ** Properties of [Update] *)

(** C1. When the listing succeeds with [units], what [Update] sends is one
    block per listed unit, in the order of the list, followed by at most
    the system-running sample. Each block has exactly five samples, one per
    name of [unitStatesName]; the sample for a name has value 1.0 when the
    name is the unit's [ActiveState] and 0.0 when it is not; and a unit
    whose state is one of the five names has exactly one sample of value
    1.0 in its block. *)
Theorem Update_unit_state_samples s units :
  well_formed (self s) ->
  first_dial (bus s) = None ->
  units_reply (bus s) = (units, None) ->
  exists blocks tail,
    emitted s (snd (Update s)) = concat blocks ++ tail /\
    Forall2 (fun unit block =>
               unit_block (unitDesc (self s)) unit block /\
               length block = 5 /\
               (In (dbus.ActiveState unit) unitStatesName -> ones block = 1))
            units blocks /\
    Forall (system_sample (systemRunningDesc (self s))) tail /\
    length tail <= 1.
Proof.
  intros Hw H Hr.
  exists (map (unit_state_samples (unitDesc (self s))) units).
  destruct (second_dial (bus s)) as [e|] eqn:H2;
    [| destruct (state_reply (bus s)) as [systemState [e|]] eqn:Hs ].
  - exists []. rewrite (Update_state_refused s units e Hw H Hr H2).
    rewrite app_nil_r, <- flat_map_blocks.
    split; [apply emitted_emit; reflexivity|].
    split; [apply blocks_one_hot|]. split; [constructor | cbn; lia].
  - exists []. rewrite (Update_state_failed s units e Hw H Hr H2)
      by (rewrite Hs; reflexivity).
    rewrite app_nil_r, <- flat_map_blocks.
    split; [apply emitted_emit; reflexivity|].
    split; [apply blocks_one_hot|]. split; [constructor | cbn; lia].
  - exists [system_running_sample (systemRunningDesc (self s)) systemState].
    rewrite (Update_succeeds s units systemState Hw H Hr H2 Hs).
    rewrite <- flat_map_blocks.
    split; [apply emitted_emit; reflexivity|].
    split; [apply blocks_one_hot|].
    split; [repeat constructor | cbn; lia].
Qed.

Lemma Update_unit_state_samples_example :
  let s := example_state (example_manager [] example_units None running_literal None) in
  exists blocks tail,
    emitted s (snd (Update s)) = concat blocks ++ tail /\
    Forall2 (fun unit block =>
               unit_block (unitDesc (self s)) unit block /\
               length block = 5 /\
               (In (dbus.ActiveState unit) unitStatesName -> ones block = 1))
            example_units blocks /\
    Forall (system_sample (systemRunningDesc (self s))) tail /\
    length tail <= 1.
Proof.
  apply (Update_unit_state_samples
           (example_state (example_manager [] example_units None running_literal None))
           example_units).
  - split; reflexivity.
  - reflexivity.
  - reflexivity.
Defined.

(** C5. [collectUnitStatusMetrics] sends one block of five samples per
    unit, labelled with the unit's name; for a unit whose [ActiveState] is
    none of the names of [unitStatesName], all five have value 0.0. *)
Theorem unknown_state_all_zero s units :
  length (prometheus.variableLabels (unitDesc (self s))) = 2 ->
  exists blocks,
    collectUnitStatusMetrics units s = (Returned tt, emit (concat blocks) s) /\
    Forall2 (fun unit block =>
               unit_block (unitDesc (self s)) unit block /\
               length block = 5 /\
               (~ In (dbus.ActiveState unit) unitStatesName ->
                Forall (fun m => prometheus.val m = 0%float) block /\
                ones block = 0))
            units blocks.
Proof.
  intros H. exists (map (unit_state_samples (unitDesc (self s))) units).
  rewrite <- flat_map_blocks. split; [now apply collectUnitStatusMetrics_run|].
  induction units as [|unit units IH]; cbn [map]; constructor; [|exact IH].
  split; [apply unit_state_samples_block|].
  split; [reflexivity | apply unit_state_samples_unknown].
Qed.

Lemma unknown_state_all_zero_example :
  let s := example_state (example_manager [] [] None "" None) in
  exists blocks,
    collectUnitStatusMetrics [example_unit "boot.mount" "reloading"] s =
    (Returned tt, emit (concat blocks) s) /\
    Forall2 (fun unit block =>
               unit_block (unitDesc (self s)) unit block /\
               length block = 5 /\
               (~ In (dbus.ActiveState unit) unitStatesName ->
                Forall (fun m => prometheus.val m = 0%float) block /\
                ones block = 0))
            [example_unit "boot.mount" "reloading"] blocks.
Proof.
  apply (unknown_state_all_zero
           (example_state (example_manager [] [] None "" None))
           [example_unit "boot.mount" "reloading"]).
  reflexivity.
Defined.

Lemma known_names_normal name :
  In name unitStatesName -> trim_and_lower name = name.
Proof.
  intros H. cbn in H.
  repeat (destruct H as [H|H]; [rewrite <- H; reflexivity|]). contradiction.
Qed.

Lemma unit_state_sample_exact d unit stateName m :
  unit_state_sample d unit stateName m ->
  prometheus.labelValues m = [dbus.Name unit; stateName] /\
  (prometheus.val m = 1%float <-> stateName = dbus.ActiveState unit) /\
  (prometheus.val m = 0%float <-> stateName <> dbus.ActiveState unit).
Proof.
  intros (_ & _ & Hl & H1 & H0). split; [exact Hl|].
  destruct (string_dec stateName (dbus.ActiveState unit)) as [E|N].
  - split; [split; [intros _; exact E | exact H1]|].
    split; [|intros N; contradiction].
    intros Hv. rewrite (H1 E) in Hv. now apply one_is_not_zero in Hv.
  - split; [|split; [intros _; exact N | exact H0]].
    split; [|intros E; contradiction].
    intros Hv. rewrite (H0 N) in Hv. symmetry in Hv.
    now apply one_is_not_zero in Hv.
Qed.

(** C10. The comparison of a state name with the unit's [ActiveState] is
    equality of the two strings as they are. For every unit, the sample
    for a name has value 1.0 exactly when the name and the state are the
    same string, and 0.0 exactly when they are not. Nothing is normalised
    first: whatever [normalize] is (trimming, case folding, of ASCII or of
    Unicode), as long as it leaves the five known names alone, a state that
    is not the known name [name] but becomes it under [normalize] gives
    five samples of value 0.0. *)
Theorem unit_state_match_is_exact s unit :
  length (prometheus.variableLabels (unitDesc (self s))) = 2 ->
  exists block,
    collectUnitStatusMetrics [unit] s = (Returned tt, emit block s) /\
    length block = 5 /\
    Forall2 (fun stateName m =>
               prometheus.labelValues m = [dbus.Name unit; stateName] /\
               (prometheus.val m = 1%float <-> stateName = dbus.ActiveState unit) /\
               (prometheus.val m = 0%float <-> stateName <> dbus.ActiveState unit))
            unitStatesName block /\
    forall (normalize : string -> string) name,
      (forall known, In known unitStatesName -> normalize known = known) ->
      In name unitStatesName ->
      dbus.ActiveState unit <> name ->
      normalize (dbus.ActiveState unit) = name ->
      Forall (fun m => prometheus.val m = 0%float) block /\ ones block = 0.
Proof.
  intros H.
  exists (unit_state_samples (unitDesc (self s)) unit).
  split.
  { rewrite collectUnitStatusMetrics_run by exact H.
    cbn [flat_map]. now rewrite app_nil_r. }
  split; [reflexivity|].
  split.
  { apply Forall2_impl with (R1 := unit_state_sample (unitDesc (self s)) unit).
    - intros stateName m. apply unit_state_sample_exact.
    - apply unit_state_samples_block. }
  intros normalize name Hfix Hin Hne Hnorm.
  apply unit_state_samples_unknown.
  intros Hk. apply Hne. rewrite <- Hnorm. symmetry. now apply Hfix.
Qed.

Lemma unit_state_match_is_exact_examples :
  let s := example_state (example_manager [] [] None "" None) in
  (exists block,
     collectUnitStatusMetrics [example_unit "sshd.service" "active"] s =
     (Returned tt, emit block s) /\
     Forall2 (fun stateName m =>
                prometheus.labelValues m = ["sshd.service"; stateName] /\
                (prometheus.val m = 1%float <-> stateName = "active") /\
                (prometheus.val m = 0%float <-> stateName <> "active"))
             unitStatesName block /\
     ones block = 1) /\
  (exists block,
     collectUnitStatusMetrics [example_unit "sshd.service" "Active"] s =
     (Returned tt, emit block s) /\
     Forall (fun m => prometheus.val m = 0%float) block /\ ones block = 0) /\
  (exists block,
     collectUnitStatusMetrics [example_unit "sshd.service" "active "] s =
     (Returned tt, emit block s) /\
     Forall (fun m => prometheus.val m = 0%float) block /\ ones block = 0).
Proof.
  cbv zeta. split; [|split].
  - destruct (unit_state_match_is_exact
                (example_state (example_manager [] [] None "" None))
                (example_unit "sshd.service" "active"))
      as (block & Hrun & _ & Hexact & _); [reflexivity|].
    exists block. split; [exact Hrun|]. split; [exact Hexact|].
    injection Hrun as Hch _. rewrite <- Hch. reflexivity.
  - destruct (unit_state_match_is_exact
                (example_state (example_manager [] [] None "" None))
                (example_unit "sshd.service" "Active"))
      as (block & Hrun & _ & _ & Hnear); [reflexivity|].
    exists block. split; [exact Hrun|].
    apply (Hnear trim_and_lower "active").
    + exact known_names_normal.
    + cbn; auto.
    + discriminate.
    + reflexivity.
  - destruct (unit_state_match_is_exact
                (example_state (example_manager [] [] None "" None))
                (example_unit "sshd.service" "active "))
      as (block & Hrun & _ & _ & Hnear); [reflexivity|].
    exists block. split; [exact Hrun|].
    apply (Hnear trim_and_lower "active").
    + exact known_names_normal.
    + cbn; auto.
    + discriminate.
    + reflexivity.
Defined.

Lemma system_running_sample_value d systemState :
  (prometheus.val (system_running_sample d systemState) = 1%float <->
   systemState = running_literal) /\
  (systemState <> running_literal ->
   prometheus.val (system_running_sample d systemState) = 0%float).
Proof.
  unfold system_running_sample; cbn [prometheus.val].
  destruct (String.eqb_spec systemState running_literal) as [E|N].
  - split; [tauto | intros N; contradiction].
  - split; [| reflexivity].
    split; [intros Hv; symmetry in Hv; now apply one_is_not_zero in Hv
           | intros E; contradiction].
Qed.

(** C2. When both steps succeed and the manager property is [systemState],
    the last sample [Update] sends is the system-running sample, and its
    value is 1.0 exactly when [systemState] is [running_literal], the nine
    characters made of a double quote, the word running and a double quote;
    for every other string, the bare word running among them, it is 0.0. *)
Theorem Update_system_running s units systemState :
  well_formed (self s) ->
  first_dial (bus s) = None ->
  units_reply (bus s) = (units, None) ->
  second_dial (bus s) = None ->
  state_reply (bus s) = (systemState, None) ->
  exists unit_samples m,
    fst (Update s) = Returned None /\
    emitted s (snd (Update s)) = unit_samples ++ [m] /\
    length unit_samples = 5 * length units /\
    system_sample (systemRunningDesc (self s)) m /\
    (prometheus.val m = 1%float <-> systemState = running_literal) /\
    (systemState <> running_literal -> prometheus.val m = 0%float) /\
    (systemState = "running" -> prometheus.val m = 0%float) /\
    String.length running_literal = 9 /\
    String.get 0 running_literal = Some "034"%char /\
    String.substring 1 7 running_literal = "running" /\
    String.get 8 running_literal = Some "034"%char.
Proof.
  intros Hw H Hr H2 Hs.
  exists (flat_map (unit_state_samples (unitDesc (self s))) units),
    (system_running_sample (systemRunningDesc (self s)) systemState).
  rewrite (Update_succeeds s units systemState Hw H Hr H2 Hs).
  destruct (system_running_sample_value (systemRunningDesc (self s)) systemState)
    as [Hiff Hzero].
  split; [reflexivity|].
  split; [apply emitted_emit; reflexivity|].
  split; [apply flat_map_blocks_length|].
  split; [repeat split|].
  split; [exact Hiff|]. split; [exact Hzero|].
  split; [intros ->; apply Hzero; discriminate|].
  repeat split.
Qed.

Lemma Update_system_running_examples :
  (let s := example_state
              (example_manager [] example_units None running_literal None) in
   exists unit_samples m,
     fst (Update s) = Returned None /\
     emitted s (snd (Update s)) = unit_samples ++ [m] /\
     prometheus.val m = 1%float) /\
  (let s := example_state (example_manager [] example_units None "running" None) in
   exists unit_samples m,
     fst (Update s) = Returned None /\
     emitted s (snd (Update s)) = unit_samples ++ [m] /\
     prometheus.val m = 0%float).
Proof.
  split.
  - destruct (Update_system_running
                (example_state
                   (example_manager [] example_units None running_literal None))
                example_units running_literal)
      as (us & m & Hr & He & _ & _ & Hone & _);
      [split; reflexivity | reflexivity | reflexivity | reflexivity | reflexivity |].
    exists us, m. split; [exact Hr|]. split; [exact He|].
    apply Hone. reflexivity.
  - destruct (Update_system_running
                (example_state (example_manager [] example_units None "running" None))
                example_units "running")
      as (us & m & Hr & He & _ & _ & _ & _ & Hbare & _);
      [split; reflexivity | reflexivity | reflexivity | reflexivity | reflexivity |].
    exists us, m. split; [exact Hr|]. split; [exact He|].
    apply Hbare. reflexivity.
Defined.

(** C9. An empty unit list is no error: when the listing succeeds with no
    unit and the system state is read, [Update] returns [nil] and sends
    exactly one sample, the system-running sample. *)
Theorem Update_no_units s systemState :
  well_formed (self s) ->
  first_dial (bus s) = None ->
  units_reply (bus s) = ([], None) ->
  second_dial (bus s) = None ->
  state_reply (bus s) = (systemState, None) ->
  exists m,
    Update s = (Returned None, snd (Update s)) /\
    ch (snd (Update s)) = ch s ++ [m] /\
    emitted s (snd (Update s)) = [m] /\
    system_sample (systemRunningDesc (self s)) m /\
    (prometheus.val m = 1%float <-> systemState = running_literal).
Proof.
  intros Hw H Hr H2 Hs.
  exists (system_running_sample (systemRunningDesc (self s)) systemState).
  rewrite (Update_succeeds s [] systemState Hw H Hr H2 Hs). cbn [flat_map app snd].
  split; [reflexivity|]. split; [reflexivity|].
  split; [apply emitted_emit; reflexivity|].
  split; [repeat split|]. apply system_running_sample_value.
Qed.

Lemma Update_no_units_example :
  let s := example_state (example_manager [] [] None "degraded" None) in
  exists m,
    Update s = (Returned None, snd (Update s)) /\
    ch (snd (Update s)) = ch s ++ [m] /\
    emitted s (snd (Update s)) = [m] /\
    system_sample (systemRunningDesc (self s)) m /\
    (prometheus.val m = 1%float <-> "degraded" = running_literal).
Proof.
  apply (Update_no_units
           (example_state (example_manager [] [] None "degraded" None)) "degraded").
  - split; reflexivity.
  - reflexivity.
  - reflexivity.
  - reflexivity.
  - reflexivity.
Defined.

Lemma emitted_nothing s s' : ch s' = ch s -> emitted s s' = [].
Proof. intros H. apply emitted_emit. now rewrite app_nil_r. Qed.

Lemma unit_samples_not_system d d' units :
  Forall (fun m => ~ system_sample d' m) (flat_map (unit_state_samples d) units).
Proof.
  apply Forall_forall. intros m Hin.
  apply in_flat_map in Hin as (unit & _ & Hm).
  unfold unit_state_samples in Hm. apply in_map_iff in Hm as (stateName & <- & _).
  intros (_ & _ & Hl). discriminate Hl.
Qed.

(** C3. When the listing step fails, because the connection is refused or
    because [ListUnits] answers with an error, [Update] sends no sample at
    all and returns an error whose message begins with the units stage:
    "couldn't get units states: " followed by the error of the step. *)
Theorem Update_units_stage_failure s e :
  first_dial (bus s) = Some e \/
  (first_dial (bus s) = None /\ snd (units_reply (bus s)) = Some e) ->
  exists msg,
    fst (Update s) = Returned (Some msg) /\
    String.prefix "couldn't get units states" msg = true /\
    msg = ("couldn't get units states: " ++
           match first_dial (bus s) with
           | Some _ => "couldn't get dbus connection: " ++ e
           | None => e
           end)%string /\
    ch (snd (Update s)) = ch s /\
    emitted s (snd (Update s)) = [].
Proof.
  intros [H | [H He]].
  - rewrite (Update_units_refused s e H), H.
    eexists; split; [reflexivity|].
    split; [reflexivity|]. split; [reflexivity|].
    split; [reflexivity | now apply emitted_nothing].
  - rewrite (Update_units_failed s e H He), H.
    eexists; split; [reflexivity|].
    split; [reflexivity|]. split; [reflexivity|].
    split; [reflexivity | now apply emitted_nothing].
Qed.

Lemma Update_units_stage_failure_examples :
  (let s := example_state
              (example_manager [0] example_units None running_literal None) in
   exists msg,
     fst (Update s) = Returned (Some msg) /\
     String.prefix "couldn't get units states" msg = true /\
     msg = ("couldn't get units states: " ++
            match first_dial (bus s) with
            | Some _ => "couldn't get dbus connection: " ++ "connection refused"
            | None => "connection refused"
            end)%string /\
     ch (snd (Update s)) = ch s /\
     emitted s (snd (Update s)) = []) /\
  (let s := example_state
              (example_manager [] example_units (Some "timeout") running_literal None) in
   exists msg,
     fst (Update s) = Returned (Some msg) /\
     String.prefix "couldn't get units states" msg = true /\
     msg = ("couldn't get units states: " ++
            match first_dial (bus s) with
            | Some _ => "couldn't get dbus connection: " ++ "timeout"
            | None => "timeout"
            end)%string /\
     ch (snd (Update s)) = ch s /\
     emitted s (snd (Update s)) = []).
Proof.
  split.
  - apply (Update_units_stage_failure
             (example_state
                (example_manager [0] example_units None running_literal None))
             "connection refused").
    left. reflexivity.
  - apply (Update_units_stage_failure
             (example_state
                (example_manager [] example_units (Some "timeout") running_literal None))
             "timeout").
    right. split; reflexivity.
Defined.

(** C4. When the listing succeeds with [units] and the system-state step
    fails, because its connection is refused or because the property read
    answers with an error, [Update] has sent the unit-state samples, five per
    listed unit, and nothing else: they stay on the channel after what was
    there before, none of them is a system-running sample, and the error
    returned begins with the system-state stage: "couldn't get system
    state: " followed by the error of the step. *)
Theorem Update_state_stage_failure s units e :
  well_formed (self s) ->
  first_dial (bus s) = None ->
  units_reply (bus s) = (units, None) ->
  second_dial (bus s) = Some e \/
  (second_dial (bus s) = None /\ snd (state_reply (bus s)) = Some e) ->
  exists msg blocks,
    fst (Update s) = Returned (Some msg) /\
    String.prefix "couldn't get system state" msg = true /\
    msg = ("couldn't get system state: " ++
           match second_dial (bus s) with
           | Some _ => "couldn't get dbus connection: " ++ e
           | None => e
           end)%string /\
    ch (snd (Update s)) = ch s ++ concat blocks /\
    emitted s (snd (Update s)) = concat blocks /\
    Forall2 (unit_block (unitDesc (self s))) units blocks /\
    length (concat blocks) = 5 * length units /\
    Forall (fun m => ~ system_sample (systemRunningDesc (self s)) m) (concat blocks).
Proof.
  intros Hw H Hr [H2 | [H2 He]].
  - rewrite (Update_state_refused s units e Hw H Hr H2), H2.
    eexists. exists (map (unit_state_samples (unitDesc (self s))) units).
    rewrite <- flat_map_blocks.
    split; [reflexivity|]. split; [reflexivity|]. split; [reflexivity|].
    split; [reflexivity|]. split; [apply emitted_emit; reflexivity|].
    split; [apply blocks_of_units|].
    split; [apply flat_map_blocks_length | apply unit_samples_not_system].
  - rewrite (Update_state_failed s units e Hw H Hr H2 He), H2.
    eexists. exists (map (unit_state_samples (unitDesc (self s))) units).
    rewrite <- flat_map_blocks.
    split; [reflexivity|]. split; [reflexivity|]. split; [reflexivity|].
    split; [reflexivity|]. split; [apply emitted_emit; reflexivity|].
    split; [apply blocks_of_units|].
    split; [apply flat_map_blocks_length | apply unit_samples_not_system].
Qed.

Lemma Update_state_stage_failure_examples :
  (let s := example_state
              (example_manager [1] example_units None running_literal None) in
   exists msg blocks,
     fst (Update s) = Returned (Some msg) /\
     String.prefix "couldn't get system state" msg = true /\
     msg = ("couldn't get system state: " ++
            match second_dial (bus s) with
            | Some _ => "couldn't get dbus connection: " ++ "connection refused"
            | None => "connection refused"
            end)%string /\
     ch (snd (Update s)) = ch s ++ concat blocks /\
     emitted s (snd (Update s)) = concat blocks /\
     Forall2 (unit_block (unitDesc (self s))) example_units blocks /\
     length (concat blocks) = 5 * length example_units /\
     Forall (fun m => ~ system_sample (systemRunningDesc (self s)) m)
            (concat blocks)) /\
  (let s := example_state
              (example_manager [] example_units None "" (Some "no such property")) in
   exists msg blocks,
     fst (Update s) = Returned (Some msg) /\
     String.prefix "couldn't get system state" msg = true /\
     msg = ("couldn't get system state: " ++
            match second_dial (bus s) with
            | Some _ => "couldn't get dbus connection: " ++ "no such property"
            | None => "no such property"
            end)%string /\
     ch (snd (Update s)) = ch s ++ concat blocks /\
     emitted s (snd (Update s)) = concat blocks /\
     Forall2 (unit_block (unitDesc (self s))) example_units blocks /\
     length (concat blocks) = 5 * length example_units /\
     Forall (fun m => ~ system_sample (systemRunningDesc (self s)) m)
            (concat blocks)).
Proof.
  split.
  - apply (Update_state_stage_failure
             (example_state
                (example_manager [1] example_units None running_literal None))
             example_units "connection refused").
    + split; reflexivity.
    + reflexivity.
    + reflexivity.
    + left. reflexivity.
  - apply (Update_state_stage_failure
             (example_state
                (example_manager [] example_units None "" (Some "no such property")))
             example_units "no such property").
    + split; reflexivity.
    + reflexivity.
    + reflexivity.
    + right. split; reflexivity.
Defined.

(** ** Order and determinism *)

Lemma labels_of_unit_samples d units :
  map prometheus.labelValues (flat_map (unit_state_samples d) units) =
  flat_map (fun unit => map (fun stateName => [dbus.Name unit; stateName])
                            unitStatesName) units.
Proof.
  induction units as [|unit units IH]; [reflexivity|].
  cbn [flat_map]. rewrite map_app, IH. reflexivity.
Qed.

(** What [Update] returns and sends is fixed by the collector and by the
    answers of the service manager. *)
Lemma Update_determined s1 s2 :
  well_formed (self s1) ->
  self s2 = self s1 ->
  same_responses (bus s1) (bus s2) ->
  fst (Update s1) = fst (Update s2) /\
  emitted s1 (snd (Update s1)) = emitted s2 (snd (Update s2)).
Proof.
  intros Hw Hself (E1 & Er & E2 & Es).
  assert (Hw2 : well_formed (self s2)) by now rewrite Hself.
  destruct (first_dial (bus s1)) as [e|] eqn:H1; symmetry in E1.
  { rewrite (Update_units_refused s1 e H1), (Update_units_refused s2 e E1).
    split; [reflexivity|]. now rewrite !emitted_nothing. }
  destruct (units_reply (bus s1)) as [units [e|]] eqn:Hr; symmetry in Er.
  { rewrite (Update_units_failed s1 e H1), (Update_units_failed s2 e E1);
      [| rewrite Er; reflexivity | rewrite Hr; reflexivity].
    split; [reflexivity|]. now rewrite !emitted_nothing. }
  destruct (second_dial (bus s1)) as [e|] eqn:H2; symmetry in E2.
  { rewrite (Update_state_refused s1 units e Hw H1 Hr H2),
      (Update_state_refused s2 units e Hw2 E1 Er E2).
    unfold listed. rewrite Hself.
    split; [reflexivity|].
    now rewrite !(emitted_emit
                    (flat_map (unit_state_samples (unitDesc (self s1))) units)). }
  destruct (state_reply (bus s1)) as [systemState [e|]] eqn:Hs; symmetry in Es.
  { rewrite (Update_state_failed s1 units e Hw H1 Hr H2),
      (Update_state_failed s2 units e Hw2 E1 Er E2);
      [| rewrite Es; reflexivity | rewrite Hs; reflexivity].
    unfold listed. rewrite Hself.
    split; [reflexivity|].
    now rewrite !(emitted_emit
                    (flat_map (unit_state_samples (unitDesc (self s1))) units)). }
  rewrite (Update_succeeds s1 units systemState Hw H1 Hr H2 Hs),
    (Update_succeeds s2 units systemState Hw2 E1 Er E2 Es), Hself.
  split; [reflexivity|].
  now rewrite !(emitted_emit
                  (flat_map (unit_state_samples (unitDesc (self s1))) units ++
                   [system_running_sample (systemRunningDesc (self s1)) systemState])).
Qed.

Lemma Update_listed_emits s units :
  well_formed (self s) ->
  first_dial (bus s) = None ->
  units_reply (bus s) = (units, None) ->
  exists tail,
    emitted s (snd (Update s)) =
    flat_map (unit_state_samples (unitDesc (self s))) units ++ tail /\
    Forall (system_sample (systemRunningDesc (self s))) tail /\
    length tail <= 1.
Proof.
  intros Hw H Hr.
  destruct (second_dial (bus s)) as [e|] eqn:H2;
    [| destruct (state_reply (bus s)) as [systemState [e|]] eqn:Hs ].
  - exists []. rewrite (Update_state_refused s units e Hw H Hr H2), app_nil_r.
    split; [apply emitted_emit; reflexivity|]. split; [constructor | cbn; lia].
  - exists []. rewrite (Update_state_failed s units e Hw H Hr H2), app_nil_r
      by (rewrite Hs; reflexivity).
    split; [apply emitted_emit; reflexivity|]. split; [constructor | cbn; lia].
  - exists [system_running_sample (systemRunningDesc (self s)) systemState].
    rewrite (Update_succeeds s units systemState Hw H Hr H2 Hs).
    split; [apply emitted_emit; reflexivity|].
    split; [repeat constructor | cbn; lia].
Qed.

(** C6. The samples come in a fixed order: the units in the order of the
    list the client returned, and for each unit the five state names in the
    declared order active, activating, deactivating, inactive, failed; the
    system-running sample, if any, comes last. Two runs of [Update] with the
    same collector and the same answers of the service manager return the
    same result and send the same sequence of samples, whatever the channel
    and the bus have seen before. *)
Theorem Update_emission_order s1 s2 :
  well_formed (self s1) ->
  self s2 = self s1 ->
  same_responses (bus s1) (bus s2) ->
  fst (Update s1) = fst (Update s2) /\
  emitted s1 (snd (Update s1)) = emitted s2 (snd (Update s2)) /\
  unitStatesName = ["active"; "activating"; "deactivating"; "inactive"; "failed"] /\
  forall units,
    first_dial (bus s1) = None ->
    units_reply (bus s1) = (units, None) ->
    exists tail,
      map prometheus.labelValues (emitted s1 (snd (Update s1))) =
      flat_map (fun unit => map (fun stateName => [dbus.Name unit; stateName])
                                unitStatesName) units ++
      map prometheus.labelValues tail /\
      Forall (system_sample (systemRunningDesc (self s1))) tail /\
      length tail <= 1.
Proof.
  intros Hw Hself Hsame.
  destruct (Update_determined s1 s2 Hw Hself Hsame) as [Hr He].
  split; [exact Hr|]. split; [exact He|]. split; [reflexivity|].
  intros units H Hu.
  destruct (Update_listed_emits s1 units Hw H Hu) as (tail & Hem & Htail & Hlen).
  exists tail. rewrite Hem, map_app, labels_of_unit_samples. auto.
Qed.

Lemma Update_emission_order_example :
  let s1 := example_state
              (example_manager [] example_units None running_literal None) in
  let s2 := snd (Update s1) in
  fst (Update s1) = fst (Update s2) /\
  emitted s1 (snd (Update s1)) = emitted s2 (snd (Update s2)) /\
  unitStatesName = ["active"; "activating"; "deactivating"; "inactive"; "failed"] /\
  forall units,
    first_dial (bus s1) = None ->
    units_reply (bus s1) = (units, None) ->
    exists tail,
      map prometheus.labelValues (emitted s1 (snd (Update s1))) =
      flat_map (fun unit => map (fun stateName => [dbus.Name unit; stateName])
                                unitStatesName) units ++
      map prometheus.labelValues tail /\
      Forall (system_sample (systemRunningDesc (self s1))) tail /\
      length tail <= 1.
Proof.
  apply (Update_emission_order
           (example_state
              (example_manager [] example_units None running_literal None))
           (snd (Update
                   (example_state
                      (example_manager [] example_units None running_literal None))))).
  - split; reflexivity.
  - reflexivity.
  - repeat split.
Defined.

(** C8. [Update] writes to no field of the collector: after every run,
    returned with or without an error or panicked, the collector and its
    two descriptors are what they were before. Nothing else is carried from
    one call to the next: a run from any state with the same collector and
    the same answers of the service manager returns and sends the same. *)
Theorem Update_mutates_no_collector_state s :
  self (snd (Update s)) = self s /\
  unitDesc (self (snd (Update s))) = unitDesc (self s) /\
  systemRunningDesc (self (snd (Update s))) = systemRunningDesc (self s) /\
  self (snd (Update (snd (Update s)))) = self s /\
  forall s0,
    well_formed (self s) ->
    self s0 = self s ->
    same_responses (bus s) (bus s0) ->
    fst (Update s0) = fst (Update s) /\
    emitted s0 (snd (Update s0)) = emitted s (snd (Update s)).
Proof.
  pose proof (Update_keeps_self s) as H.
  split; [exact H|]. split; [now rewrite H|]. split; [now rewrite H|].
  split; [now rewrite Update_keeps_self|].
  intros s0 Hw Hself Hsame.
  destruct (Update_determined s s0 Hw Hself Hsame) as [Hr He].
  split; symmetry; assumption.
Qed.

Lemma Update_mutates_no_collector_state_example :
  let s := example_state
             (example_manager [] example_units None running_literal None) in
  let s0 := snd (Update s) in
  self s0 = self s /\
  self (snd (Update s0)) = self s /\
  fst (Update s0) = fst (Update s) /\
  emitted s0 (snd (Update s0)) = emitted s (snd (Update s)).
Proof.
  destruct (Update_mutates_no_collector_state
              (example_state
                 (example_manager [] example_units None running_literal None)))
    as (Hself & _ & _ & Htwice & Hsame).
  split; [exact Hself|]. split; [exact Htwice|].
  apply Hsame.
  - split; reflexivity.
  - reflexivity.
  - repeat split.
Defined.

(** ** Connections *)

Lemma Update_calls s :
  exists tr,
    dbus.history (bus (snd (Update s))) = dbus.history (bus s) ++ tr /\
    cycle_calls (dbus.dials (bus s)) tr.
Proof.
  unfold Update. unfold bind at 1.
  destruct (first_dial (bus s)) as [e|] eqn:H1.
  { rewrite (listUnits_refused s e H1). eexists. split; [reflexivity|].
    left. now exists e. }
  rewrite (listUnits_accepted s H1).
  destruct (units_reply (bus s)) as [units [e|]] eqn:Hr.
  { eexists. split; [cbn; rewrite Hr; reflexivity|].
    right; left. now exists (Some e). }
  unfold bind at 1.
  pose proof (collectUnitStatusMetrics_keeps_bus units
                (on_bus (after_listing (bus s)) s)) as Hb.
  destruct (collectUnitStatusMetrics units (on_bus (after_listing (bus s)) s))
    as [[[]|r] s2]; cbn [snd on_bus bus] in Hb.
  2:{ eexists. split; [cbn [snd]; rewrite Hb; cbn; rewrite Hr; reflexivity|].
      right; left. now exists None. }
  unfold bind at 1.
  destruct (first_dial (bus s2)) as [e|] eqn:H2.
  { rewrite (getSystemState_refused s2 e H2). eexists.
    split; [cbn; rewrite Hb; cbn; rewrite Hr, <- app_assoc; reflexivity|].
    right; right; left. now exists e. }
  rewrite (getSystemState_accepted s2 H2).
  destruct (dbus.answer_GetManagerProperty (dbus.manager (bus s2))
              (dbus.dials (bus s2)) "SystemState") as [systemState [e|]] eqn:Hs.
  { eexists.
    split; [cbn; rewrite Hs, Hb; cbn; rewrite Hr, <- app_assoc; reflexivity|].
    right; right; right. now exists (Some e). }
  unfold bind at 1.
  pose proof (collectSystemState_keeps_bus systemState
                (on_bus (after_state (bus s2)) s2)) as Hb'.
  destruct (collectSystemState systemState (on_bus (after_state (bus s2)) s2))
    as [[[]|r] s4]; cbn [snd on_bus bus] in Hb';
    (eexists;
     split; [cbn; rewrite Hb'; cbn; rewrite Hs, Hb; cbn;
             rewrite Hr, <- app_assoc; reflexivity|];
     right; right; right; now exists None).
Qed.

Lemma cycle_calls_scoped n tr :
  cycle_calls n tr ->
  scoped tr = true /\
  held tr [] = [] /\
  peak tr [] <= 1 /\
  NoDup (queried tr) /\
  length (queried tr) <= 2 /\
  Forall (fun c => n <= c) (queried tr).
Proof.
  assert (Hn : remove Nat.eq_dec n [n] = []).
  { cbn. destruct (Nat.eq_dec n n); [reflexivity | contradiction]. }
  assert (Hn' : remove Nat.eq_dec (S n) [S n] = []).
  { cbn [remove]. destruct (Nat.eq_dec (S n) (S n)); [reflexivity | contradiction]. }
  intros [[e ->] | [[err ->] | [[e ->] | [err ->]]]];
    cbn [scoped held peak hold queried]; unfold dbus.Conn;
    rewrite ?Nat.eqb_refl, ?Hn, ?Hn'; cbn [andb length Nat.max];
    (split; [reflexivity|]); (split; [reflexivity|]); (split; [lia|]).
  - repeat constructor.
  - split; [repeat constructor; cbn; tauto|]. split; [cbn; lia | repeat constructor].
  - split; [repeat constructor; cbn; tauto|]. split; [cbn; lia | repeat constructor].
  - split; [|split; [cbn; lia | repeat constructor]].
    constructor; [cbn; lia | repeat constructor; cbn; tauto].
Qed.

(** *** The log of a run *)

Lemma called_app l l' : called (l ++ l') = called l ++ called l'.
Proof.
  induction l as [|[m|e] l IH]; cbn [app called]; [reflexivity | exact IH |].
  now rewrite IH.
Qed.

Lemma sent_app l l' : sent (l ++ l') = sent l ++ sent l'.
Proof.
  induction l as [|[m|e] l IH]; cbn [app sent]; [reflexivity | | exact IH].
  now rewrite IH.
Qed.

Lemma called_Sent ms : called (map Sent ms) = [].
Proof. induction ms as [|m ms IH]; [reflexivity | exact IH]. Qed.

Lemma sent_Sent ms : sent (map Sent ms) = ms.
Proof. induction ms as [|m ms IH]; cbn [map sent]; [reflexivity | now rewrite IH]. Qed.

Lemma scoped_run_Sent ms rest : scoped_run (map Sent ms ++ rest) = scoped_run rest.
Proof. induction ms as [|m ms IH]; [reflexivity | exact IH]. Qed.

Lemma acts_log l s s' : log s' = log s ++ l -> acts s s' = l.
Proof. intros H; unfold acts; rewrite H; apply skipn_length_app. Qed.

Lemma since_after_refusal e b :
  dbus.since b (after_refusal e b) = [dbus.Dialed (dbus.dials b) (Some e)].
Proof. unfold dbus.since, after_refusal; cbn [dbus.history]. apply skipn_length_app. Qed.

Lemma since_after_listing b :
  dbus.since b (after_listing b) =
  [dbus.Dialed (dbus.dials b) None;
   dbus.ListUnitsCalled (dbus.dials b) (snd (units_reply b));
   dbus.Closed (dbus.dials b)].
Proof. unfold dbus.since, after_listing; cbn [dbus.history]. apply skipn_length_app. Qed.

Lemma since_after_state b :
  dbus.since b (after_state b) =
  [dbus.Dialed (dbus.dials b) None;
   dbus.GetManagerPropertyCalled (dbus.dials b) "SystemState"
     (snd (dbus.answer_GetManagerProperty (dbus.manager b) (dbus.dials b)
             "SystemState"));
   dbus.Closed (dbus.dials b)].
Proof. unfold dbus.since, after_state; cbn [dbus.history]. apply skipn_length_app. Qed.

Lemma sends_only_ret {A} (a : A) : sends_only (ret a).
Proof.
  intros s. split; [reflexivity|]. exists []. cbn. now rewrite !app_nil_r.
Qed.

Lemma sends_only_panic {A} r : sends_only (@panic A r).
Proof.
  intros s. split; [reflexivity|]. exists []. cbn. now rewrite !app_nil_r.
Qed.

Lemma sends_only_field {A} (p : systemdCollector -> A) : sends_only (field p).
Proof.
  intros s. split; [reflexivity|]. exists []. cbn. now rewrite !app_nil_r.
Qed.

Lemma sends_only_send m : sends_only (send m).
Proof. intros s. split; [reflexivity|]. exists [m]. split; reflexivity. Qed.

Lemma sends_only_MustNewConstMetric d vt v lvs :
  sends_only (MustNewConstMetric d vt v lvs).
Proof.
  unfold MustNewConstMetric.
  destruct (prometheus.NewConstMetric d vt v lvs) as [[m|] [e|]];
    first [apply sends_only_ret | apply sends_only_panic].
Qed.

Lemma sends_only_bind {A B} (m : Go A) (k : A -> Go B) :
  sends_only m -> (forall a, sends_only (k a)) -> sends_only (bind m k).
Proof.
  intros Hm Hk s. unfold bind. destruct (Hm s) as (Hb & ms & Hc & Hl).
  destruct (m s) as [[a|r] s1]; cbn [snd] in *.
  - destruct (Hk a s1) as (Hb' & ms' & Hc' & Hl').
    split; [congruence|]. exists (ms ++ ms').
    rewrite Hc', Hl', Hc, Hl, map_app, !app_assoc. split; reflexivity.
  - split; [exact Hb|]. exists ms. split; assumption.
Qed.

Lemma sends_only_range {A} (xs : list A) (body : A -> Go unit) :
  (forall x, sends_only (body x)) -> sends_only (range xs body).
Proof.
  intros Hb. induction xs as [|x xs IH]; cbn [range].
  - apply sends_only_ret.
  - apply sends_only_bind; [apply Hb | intros _; exact IH].
Qed.

Lemma collectUnitStatusMetrics_sends_only units :
  sends_only (collectUnitStatusMetrics units).
Proof.
  unfold collectUnitStatusMetrics.
  apply sends_only_range; intros unit. apply sends_only_range; intros stateName.
  apply sends_only_bind; [apply sends_only_field | intros d].
  apply sends_only_bind; [apply sends_only_MustNewConstMetric | intros m].
  apply sends_only_send.
Qed.

Lemma collectSystemState_sends_only systemState :
  sends_only (collectSystemState systemState).
Proof.
  unfold collectSystemState.
  apply sends_only_bind; [apply sends_only_field | intros d].
  apply sends_only_bind; [apply sends_only_MustNewConstMetric | intros m].
  apply sends_only_send.
Qed.

Lemma scoped_run_only_Sent ms : scoped_run (map Sent ms) = true.
Proof. induction ms as [|m ms IH]; [reflexivity | exact IH]. Qed.

(** Every run of [Update], told as one list of actions. *)
Lemma Update_log s :
  exists l,
    log (snd (Update s)) = log s ++ l /\
    dbus.history (bus (snd (Update s))) = dbus.history (bus s) ++ called l /\
    ch (snd (Update s)) = ch s ++ sent l /\
    cycle_calls (dbus.dials (bus s)) (called l) /\
    scoped_run l = true.
Proof.
  remember (Update s) as run eqn:Hrun.
  unfold Update in Hrun. unfold bind at 1 in Hrun.
  destruct (first_dial (bus s)) as [e|] eqn:H1.
  { rewrite (listUnits_refused s e H1) in Hrun. subst run.
    exists [Called (dbus.Dialed (dbus.dials (bus s)) (Some e))].
    cbn [ret snd on_bus log bus ch called sent scoped_run].
    rewrite since_after_refusal, app_nil_r.
    repeat split. left. now exists e. }
  rewrite (listUnits_accepted s H1) in Hrun.
  destruct (units_reply (bus s)) as [units [e|]] eqn:Hr.
  { subst run.
    exists [Called (dbus.Dialed (dbus.dials (bus s)) None);
            Called (dbus.ListUnitsCalled (dbus.dials (bus s)) (Some e));
            Called (dbus.Closed (dbus.dials (bus s)))].
    cbn [ret snd on_bus log bus ch called sent scoped_run map after_listing
         dbus.history].
    rewrite since_after_listing, Hr, app_nil_r, !Nat.eqb_refl.
    repeat split. right; left. now exists (Some e). }
  unfold bind at 1 in Hrun.
  destruct (collectUnitStatusMetrics_sends_only units
              (on_bus (after_listing (bus s)) s)) as (Hb & ms & Hc & Hl).
  destruct (collectUnitStatusMetrics units (on_bus (after_listing (bus s)) s))
    as [[[]|r] s2]; cbn [snd on_bus bus ch log] in Hb, Hc, Hl;
    rewrite since_after_listing, Hr in Hl; cbn [snd map] in Hl.
  2:{ subst run.
      exists ([Called (dbus.Dialed (dbus.dials (bus s)) None);
               Called (dbus.ListUnitsCalled (dbus.dials (bus s)) None);
               Called (dbus.Closed (dbus.dials (bus s)))] ++ map Sent ms).
      cbn [snd]. rewrite Hl, Hb, Hc, called_app, sent_app, called_Sent, sent_Sent.
      cbn [called sent app after_listing dbus.history scoped_run].
      rewrite Hr, <- ?app_assoc, ?scoped_run_only_Sent, ?Nat.eqb_refl, ?app_nil_r.
      repeat split. right; left. now exists None. }
  unfold bind at 1 in Hrun.
  assert (Hd : dbus.dials (bus s2) = S (dbus.dials (bus s))) by now rewrite Hb.
  assert (Hh : dbus.history (bus s2) =
               dbus.history (bus s) ++
               [dbus.Dialed (dbus.dials (bus s)) None;
                dbus.ListUnitsCalled (dbus.dials (bus s)) None;
                dbus.Closed (dbus.dials (bus s))]).
  { rewrite Hb. cbn [after_listing dbus.history]. now rewrite Hr. }
  destruct (first_dial (bus s2)) as [e|] eqn:H2.
  { rewrite (getSystemState_refused s2 e H2) in Hrun. subst run.
    exists ([Called (dbus.Dialed (dbus.dials (bus s)) None);
             Called (dbus.ListUnitsCalled (dbus.dials (bus s)) None);
             Called (dbus.Closed (dbus.dials (bus s)))] ++ map Sent ms ++
            [Called (dbus.Dialed (S (dbus.dials (bus s))) (Some e))]).
    cbn [ret snd on_bus log bus ch].
    rewrite since_after_refusal, Hl, Hc, Hd, !called_app, !sent_app,
      called_Sent, sent_Sent.
    cbn [called sent app map after_refusal dbus.history scoped_run].
    rewrite Hh, ?Hd, <- ?app_assoc, ?scoped_run_Sent, ?Nat.eqb_refl, ?app_nil_r.
    repeat split. right; right; left. now exists e. }
  rewrite (getSystemState_accepted s2 H2) in Hrun.
  destruct (dbus.answer_GetManagerProperty (dbus.manager (bus s2))
              (dbus.dials (bus s2)) "SystemState") as [systemState err] eqn:Hs.
  assert (Hl3 : log (on_bus (after_state (bus s2)) s2) =
                log s ++
                ([Called (dbus.Dialed (dbus.dials (bus s)) None);
                  Called (dbus.ListUnitsCalled (dbus.dials (bus s)) None);
                  Called (dbus.Closed (dbus.dials (bus s)))] ++ map Sent ms ++
                 [Called (dbus.Dialed (S (dbus.dials (bus s))) None);
                  Called (dbus.GetManagerPropertyCalled (S (dbus.dials (bus s)))
                            "SystemState" err);
                  Called (dbus.Closed (S (dbus.dials (bus s))))])).
  { cbn [on_bus log]. rewrite since_after_state, Hs, Hl, Hd.
    cbn [snd map app]. now rewrite <- !app_assoc. }
  assert (Hh3 : dbus.history (after_state (bus s2)) =
                dbus.history (bus s) ++
                [dbus.Dialed (dbus.dials (bus s)) None;
                 dbus.ListUnitsCalled (dbus.dials (bus s)) None;
                 dbus.Closed (dbus.dials (bus s));
                 dbus.Dialed (S (dbus.dials (bus s))) None;
                 dbus.GetManagerPropertyCalled (S (dbus.dials (bus s)))
                   "SystemState" err;
                 dbus.Closed (S (dbus.dials (bus s)))]).
  { cbn [after_state dbus.history]. rewrite Hs, Hh, Hd. cbn [snd].
    now rewrite <- !app_assoc. }
  destruct err as [e|].
  { subst run. eexists. cbn [ret snd]. split; [exact Hl3|].
    cbn [on_bus bus ch].
    rewrite Hh3, Hc, !called_app, !sent_app, called_Sent, sent_Sent.
    cbn [called sent app scoped_run]. rewrite ?scoped_run_Sent.
    cbn [scoped_run]. rewrite ?Nat.eqb_refl, ?app_nil_r, <- ?app_assoc.
    repeat split. right; right; right. now exists (Some e). }
  unfold bind at 1 in Hrun.
  destruct (collectSystemState_sends_only systemState
              (on_bus (after_state (bus s2)) s2)) as (Hb' & ms' & Hc' & Hl').
  rewrite Hl3 in Hl'. cbn [on_bus bus ch] in Hb', Hc'. rewrite Hc in Hc'.
  exists ([Called (dbus.Dialed (dbus.dials (bus s)) None);
           Called (dbus.ListUnitsCalled (dbus.dials (bus s)) None);
           Called (dbus.Closed (dbus.dials (bus s)))] ++ map Sent ms ++
          [Called (dbus.Dialed (S (dbus.dials (bus s))) None);
           Called (dbus.GetManagerPropertyCalled (S (dbus.dials (bus s)))
                     "SystemState" None);
           Called (dbus.Closed (S (dbus.dials (bus s))))] ++ map Sent ms').
  assert (Hsnd : snd run = snd (collectSystemState systemState
                                  (on_bus (after_state (bus s2)) s2))).
  { subst run.
    destruct (collectSystemState systemState (on_bus (after_state (bus s2)) s2))
      as [[[]|r] s4]; reflexivity. }
  rewrite Hsnd, Hl', Hb', Hc', Hh3, !called_app, !sent_app, !called_Sent, !sent_Sent.
  cbn [called sent app scoped_run]. rewrite ?scoped_run_Sent. cbn [scoped_run].
  rewrite ?scoped_run_only_Sent, ?Nat.eqb_refl, ?app_nil_r, <- ?app_assoc.
  repeat split; [cbn [app]; rewrite <- ?app_assoc; reflexivity|].
  right; right; right. now exists None.
Qed.

(** On a well-formed collector the run is fixed by the four answers. *)
Lemma Update_acts s :
  well_formed (self s) ->
  acts s (snd (Update s)) =
  cycle_acts (self s) (dbus.dials (bus s)) (first_dial (bus s))
             (units_reply (bus s)) (second_dial (bus s)) (state_reply (bus s)).
Proof.
  intros Hw. unfold cycle_acts.
  destruct (first_dial (bus s)) as [e|] eqn:H1.
  { rewrite (Update_units_refused s e H1). apply acts_log.
    cbn [snd on_bus log]. now rewrite since_after_refusal. }
  destruct (units_reply (bus s)) as [units [e|]] eqn:Hr.
  { rewrite (Update_units_failed s e H1) by (rewrite Hr; reflexivity).
    apply acts_log. cbn [snd on_bus log]. rewrite since_after_listing, Hr.
    reflexivity. }
  destruct (second_dial (bus s)) as [e|] eqn:H2.
  { rewrite (Update_state_refused s units e Hw H1 Hr H2). apply acts_log.
    cbn [snd on_bus log listed emit bus self ch].
    rewrite since_after_refusal, since_after_listing, Hr.
    cbn [after_listing dbus.dials fst snd map app].
    rewrite <- ?app_assoc. reflexivity. }
  destruct (state_reply (bus s)) as [systemState err] eqn:Hs.
  assert (Hlog : log (on_bus (after_state (after_listing (bus s))) (listed units s)) =
                 log s ++
                 [Called (dbus.Dialed (dbus.dials (bus s)) None);
                  Called (dbus.ListUnitsCalled (dbus.dials (bus s)) None);
                  Called (dbus.Closed (dbus.dials (bus s)))] ++
                 map Sent (flat_map (unit_state_samples (unitDesc (self s))) units) ++
                 [Called (dbus.Dialed (S (dbus.dials (bus s))) None);
                  Called (dbus.GetManagerPropertyCalled (S (dbus.dials (bus s)))
                            "SystemState" err);
                  Called (dbus.Closed (S (dbus.dials (bus s))))]).
  { cbn [on_bus log listed emit bus self ch].
    rewrite since_after_state, since_after_listing, Hr.
    cbn [after_listing dbus.dials dbus.manager]. unfold state_reply in Hs.
    rewrite Hs. cbn [fst snd map app]. rewrite <- ?app_assoc. reflexivity. }
  destruct err as [e|].
  { rewrite (Update_state_failed s units e Hw H1 Hr H2)
      by (rewrite Hs; reflexivity).
    apply acts_log. cbn [snd fst]. rewrite Hlog. reflexivity. }
  rewrite (Update_succeeds s units systemState Hw H1 Hr H2 Hs).
  apply acts_log. cbn [snd fst log]. rewrite Hlog.
  repeat first [rewrite <- app_assoc | progress cbn [app]]. reflexivity.
Qed.

(** C7. Every run of [Update], with or without an error or a panic, is a
    sequence of refused attempts and of blocks open, query, close: each
    query goes over the connection opened just before it, and that
    connection is closed as the very next action, whatever the query
    answered; samples are sent only between the blocks, never while a
    connection is open. No connection is left open at the end, at most one
    is open at any point, and the two queries never share a connection. On
    a well-formed collector the run is exactly [cycle_acts]: the listing
    opens, queries and closes connection [n]; the unit samples follow; the
    system-state read then opens, queries and closes connection [n + 1],
    on the success and on the failure path of either query. *)
Theorem Update_connections_scoped s :
  exists tr,
    dbus.history (bus (snd (Update s))) = dbus.history (bus s) ++ tr /\
    calls s (snd (Update s)) = tr /\
    cycle_calls (dbus.dials (bus s)) tr /\
    scoped tr = true /\
    held tr [] = [] /\
    peak tr [] <= 1 /\
    NoDup (queried tr) /\
    length (queried tr) <= 2 /\
    Forall (fun c => dbus.dials (bus s) <= c) (queried tr) /\
    tr = called (acts s (snd (Update s))) /\
    emitted s (snd (Update s)) = sent (acts s (snd (Update s))) /\
    scoped_run (acts s (snd (Update s))) = true /\
    (well_formed (self s) ->
     acts s (snd (Update s)) =
     cycle_acts (self s) (dbus.dials (bus s)) (first_dial (bus s))
                (units_reply (bus s)) (second_dial (bus s)) (state_reply (bus s))).
Proof.
  destruct (Update_log s) as (l & Hl & Hh & Hc & Hcyc & Hsc).
  exists (called l). rewrite (acts_log l s _ Hl).
  split; [exact Hh|]. split; [now apply calls_history|].
  split; [exact Hcyc|].
  destruct (cycle_calls_scoped _ _ Hcyc) as (H1 & H2 & H3 & H4 & H5 & H6).
  repeat (split; [assumption|]).
  split; [reflexivity|]. split; [now apply emitted_emit|].
  split; [exact Hsc|].
  intros Hw. rewrite <- (Update_acts s Hw). symmetry. now apply acts_log.
Qed.

Lemma Update_connections_scoped_examples :
  (let s := example_state
              (example_manager [] example_units None running_literal None) in
   acts s (snd (Update s)) =
   [Called (dbus.Dialed 0 None); Called (dbus.ListUnitsCalled 0 None);
    Called (dbus.Closed 0)] ++
   map Sent (flat_map (unit_state_samples (unitDesc (self s))) example_units) ++
   [Called (dbus.Dialed 1 None);
    Called (dbus.GetManagerPropertyCalled 1 "SystemState" None);
    Called (dbus.Closed 1);
    Sent (system_running_sample (systemRunningDesc (self s)) running_literal)]) /\
  (let s := example_state
              (example_manager [] example_units None "" (Some "no such property")) in
   acts s (snd (Update s)) =
   [Called (dbus.Dialed 0 None); Called (dbus.ListUnitsCalled 0 None);
    Called (dbus.Closed 0)] ++
   map Sent (flat_map (unit_state_samples (unitDesc (self s))) example_units) ++
   [Called (dbus.Dialed 1 None);
    Called (dbus.GetManagerPropertyCalled 1 "SystemState" (Some "no such property"));
    Called (dbus.Closed 1)]).
Proof.
  split.
  - destruct (Update_connections_scoped
                (example_state
                   (example_manager [] example_units None running_literal None)))
      as (tr & _ & _ & _ & _ & _ & _ & _ & _ & _ & _ & _ & _ & Hexact).
    cbv zeta. rewrite Hexact; [reflexivity | split; reflexivity].
  - destruct (Update_connections_scoped
                (example_state
                   (example_manager [] example_units None ""
                      (Some "no such property"))))
      as (tr & _ & _ & _ & _ & _ & _ & _ & _ & _ & _ & _ & _ & Hexact).
    cbv zeta. rewrite Hexact; [reflexivity | split; reflexivity].
Defined.

Example Update_connections_example :
  let s := example_state
             (example_manager [] example_units (Some "timeout") running_literal None) in
  calls s (snd (Update s)) =
  [dbus.Dialed 0 None; dbus.ListUnitsCalled 0 (Some "timeout"); dbus.Closed 0].
Proof. reflexivity. Qed.

(** ** The outcome of [Update] *)

(** The five runs, side by side. *)
Lemma Update_cases s :
  well_formed (self s) ->
  let samples := flat_map (unit_state_samples (unitDesc (self s)))
                          (fst (units_reply (bus s))) in
  (exists e, first_dial (bus s) = Some e /\
     fst (Update s) =
     Returned (Some ("couldn't get units states: " ++
                     "couldn't get dbus connection: " ++ e)%string) /\
     ch (snd (Update s)) = ch s) \/
  (exists e, first_dial (bus s) = None /\ snd (units_reply (bus s)) = Some e /\
     fst (Update s) = Returned (Some ("couldn't get units states: " ++ e)%string) /\
     ch (snd (Update s)) = ch s) \/
  (exists e, first_dial (bus s) = None /\ snd (units_reply (bus s)) = None /\
     second_dial (bus s) = Some e /\
     fst (Update s) =
     Returned (Some ("couldn't get system state: " ++
                     "couldn't get dbus connection: " ++ e)%string) /\
     ch (snd (Update s)) = ch s ++ samples) \/
  (exists e, first_dial (bus s) = None /\ snd (units_reply (bus s)) = None /\
     second_dial (bus s) = None /\ snd (state_reply (bus s)) = Some e /\
     fst (Update s) = Returned (Some ("couldn't get system state: " ++ e)%string) /\
     ch (snd (Update s)) = ch s ++ samples) \/
  (first_dial (bus s) = None /\ snd (units_reply (bus s)) = None /\
   second_dial (bus s) = None /\ snd (state_reply (bus s)) = None /\
   fst (Update s) = Returned None /\
   ch (snd (Update s)) =
   ch s ++ samples ++
   [system_running_sample (systemRunningDesc (self s)) (fst (state_reply (bus s)))]).
Proof.
  intros Hw samples; subst samples.
  destruct (first_dial (bus s)) as [e|] eqn:H1.
  { left. exists e. rewrite (Update_units_refused s e H1). auto. }
  destruct (units_reply (bus s)) as [units [e|]] eqn:Hr.
  { right; left. exists e.
    rewrite (Update_units_failed s e H1) by (rewrite Hr; reflexivity). auto. }
  destruct (second_dial (bus s)) as [e|] eqn:H2.
  { right; right; left. exists e.
    rewrite (Update_state_refused s units e Hw H1 Hr H2). auto. }
  destruct (state_reply (bus s)) as [systemState [e|]] eqn:Hs.
  { right; right; right; left. exists e.
    rewrite (Update_state_failed s units e Hw H1 Hr H2)
      by (rewrite Hs; reflexivity).
    auto 6. }
  right; right; right; right.
  rewrite (Update_succeeds s units systemState Hw H1 Hr H2 Hs). auto 6.
Qed.

(** X1. On a collector built by [NewSystemdCollector], whatever the
    namespace, the channel, the service manager and what happened before,
    [Update] never panics: it returns, with [nil] or with an error. *)
Theorem Update_constructed_never_panics Namespace chan b before :
  exists err,
    fst (Update {| self := fst (NewSystemdCollector Namespace);
                   ch := chan; bus := b; log := before |}) = Returned err.
Proof.
  pose proof (Update_cases
                {| self := fst (NewSystemdCollector Namespace); ch := chan; bus := b;
                   log := before |}
                (proj1 (NewSystemdCollector_well_formed Namespace))) as H.
  cbv zeta in H.
  destruct H as [(e & _ & H & _) | [(e & _ & _ & H & _) | [(e & _ & _ & _ & H & _) |
                 [(e & _ & _ & _ & _ & H & _) | (_ & _ & _ & _ & H & _)]]]];
    rewrite H; eauto.
Qed.

(** X2. [Update] returns [nil] exactly when both connections are accepted
    and both queries answer without an error. *)
Theorem Update_nil_iff s :
  well_formed (self s) ->
  (fst (Update s) = Returned None <->
   first_dial (bus s) = None /\ snd (units_reply (bus s)) = None /\
   second_dial (bus s) = None /\ snd (state_reply (bus s)) = None).
Proof.
  intros Hw. pose proof (Update_cases s Hw) as H. cbv zeta in H.
  destruct H as [(e & H1 & H & _) | [(e & H1 & Hr & H & _) |
                 [(e & H1 & Hr & H2 & H & _) |
                 [(e & H1 & Hr & H2 & Hs & H & _) | (H1 & Hr & H2 & Hs & H & _)]]]];
    rewrite H; split; try discriminate; try tauto;
    intros (? & ? & ? & ?); congruence.
Qed.

Lemma Update_nil_iff_example :
  let s := example_state
             (example_manager [] example_units None running_literal None) in
  fst (Update s) = Returned None <->
  first_dial (bus s) = None /\ snd (units_reply (bus s)) = None /\
  second_dial (bus s) = None /\ snd (state_reply (bus s)) = None.
Proof.
  apply (Update_nil_iff
           (example_state
              (example_manager [] example_units None running_literal None))).
  split; reflexivity.
Defined.

(** X3. Every error [Update] returns names its stage, and the stage tells
    what was sent: an error that begins "couldn't get units states: " comes
    with no sample, one that begins "couldn't get system state: " with
    five samples per listed unit; there is no other error. *)
Theorem Update_error_names_stage s msg :
  well_formed (self s) ->
  fst (Update s) = Returned (Some msg) ->
  (String.prefix "couldn't get units states: " msg = true /\
   emitted s (snd (Update s)) = []) \/
  (String.prefix "couldn't get system state: " msg = true /\
   length (emitted s (snd (Update s))) = 5 * length (fst (units_reply (bus s)))).
Proof.
  intros Hw Hmsg. pose proof (Update_cases s Hw) as H. cbv zeta in H.
  destruct H as [(e & _ & H & Hch) | [(e & _ & _ & H & Hch) |
                 [(e & _ & _ & _ & H & Hch) |
                 [(e & _ & _ & _ & _ & H & Hch) | (_ & _ & _ & _ & H & _)]]]];
    rewrite H in Hmsg; [injection Hmsg as <- .. | discriminate Hmsg].
  - left. split; [destruct e; reflexivity | now apply emitted_nothing].
  - left. split; [destruct e; reflexivity | now apply emitted_nothing].
  - right. split; [destruct e; reflexivity|].
    rewrite (emitted_emit _ _ _ Hch). apply flat_map_blocks_length.
  - right. split; [destruct e; reflexivity|].
    rewrite (emitted_emit _ _ _ Hch). apply flat_map_blocks_length.
Qed.

Lemma Update_error_names_stage_example :
  let s := example_state
             (example_manager [1] example_units None running_literal None) in
  (String.prefix "couldn't get units states: "
     "couldn't get system state: couldn't get dbus connection: connection refused"
   = true /\
   emitted s (snd (Update s)) = []) \/
  (String.prefix "couldn't get system state: "
     "couldn't get system state: couldn't get dbus connection: connection refused"
   = true /\
   length (emitted s (snd (Update s))) = 5 * length (fst (units_reply (bus s)))).
Proof.
  apply (Update_error_names_stage
           (example_state
              (example_manager [1] example_units None running_literal None))).
  - split; reflexivity.
  - reflexivity.
Defined.

(** ** The loop over the units *)

Lemma range_app {A} (xs ys : list A) (body : A -> Go unit) s :
  range (xs ++ ys) body s = (range xs body ;; range ys body) s.
Proof.
  revert s. induction xs as [|x xs IH]; intros s; [reflexivity|].
  cbn [app range]. unfold bind at 1 2 3.
  destruct (body x s) as [[[]|r] s1]; [|reflexivity].
  rewrite IH. reflexivity.
Qed.

(** X4. Listing is handled unit by unit: the samples for a list made of
    two parts are those of the first part, then those of the second, in
    every run, also one that panics in the first part. *)
Theorem collectUnitStatusMetrics_app units1 units2 s :
  collectUnitStatusMetrics (units1 ++ units2) s =
  (collectUnitStatusMetrics units1 ;; collectUnitStatusMetrics units2) s.
Proof. unfold collectUnitStatusMetrics. apply range_app. Qed.

Lemma ones_app ms ms' : ones (ms ++ ms') = ones ms + ones ms'.
Proof. unfold ones. now rewrite filter_app, length_app. Qed.

Lemma known_state_In unit :
  known_state unit = true <-> In (dbus.ActiveState unit) unitStatesName.
Proof.
  unfold known_state. rewrite existsb_exists. split.
  - intros (name & Hin & E). apply String.eqb_eq in E. now subst.
  - intros Hin. exists (dbus.ActiveState unit). split; [exact Hin|].
    apply String.eqb_refl.
Qed.

Lemma ones_unit d unit :
  ones (unit_state_samples d unit) = if known_state unit then 1 else 0.
Proof.
  destruct (known_state unit) eqn:K.
  - apply unit_state_samples_known. now apply known_state_In.
  - apply unit_state_samples_unknown. intros Hin.
    apply known_state_In in Hin. congruence.
Qed.

Lemma ones_units d units :
  ones (flat_map (unit_state_samples d) units) = length (filter known_state units).
Proof.
  induction units as [|unit units IH]; [reflexivity|].
  cbn [flat_map filter]. rewrite ones_app, IH, ones_unit.
  destruct (known_state unit); reflexivity.
Qed.

Lemma filter_no_longer {A} (f : A -> bool) l : length (filter f l) <= length l.
Proof.
  induction l as [|a l IH]; [reflexivity|].
  cbn [filter]. destruct (f a); cbn [length]; lia.
Qed.

(** X5. Over a whole listing, the number of unit-state samples of value
    1.0 is the number of listed units whose state is one of the five known
    names; it is never more than the number of units, and there are five
    samples per unit in all. *)
Theorem unit_samples_count_known s units :
  length (prometheus.variableLabels (unitDesc (self s))) = 2 ->
  exists ms,
    collectUnitStatusMetrics units s = (Returned tt, emit ms s) /\
    length ms = 5 * length units /\
    ones ms = length (filter known_state units) /\
    ones ms <= length units.
Proof.
  intros H. exists (flat_map (unit_state_samples (unitDesc (self s))) units).
  split; [now apply collectUnitStatusMetrics_run|].
  split; [apply flat_map_blocks_length|].
  rewrite ones_units. split; [reflexivity | apply filter_no_longer].
Qed.

Lemma unit_samples_count_known_example :
  let s := example_state (example_manager [] [] None "" None) in
  let units := [example_unit "sshd.service" "active";
                example_unit "boot.mount" "reloading";
                example_unit "cron.service" "failed"] in
  exists ms,
    collectUnitStatusMetrics units s = (Returned tt, emit ms s) /\
    length ms = 5 * length units /\
    ones ms = length (filter known_state units) /\
    ones ms <= length units.
Proof.
  apply (unit_samples_count_known
           (example_state (example_manager [] [] None "" None))
           [example_unit "sshd.service" "active";
            example_unit "boot.mount" "reloading";
            example_unit "cron.service" "failed"]).
  reflexivity.
Defined.

Lemma bind_cong {A B} (m : Go A) (k k' : A -> Go B) s :
  (forall a s', k a s' = k' a s') -> bind m k s = bind m k' s.
Proof.
  intros H. unfold bind. destruct (m s) as [[a|r] s1]; [apply H | reflexivity].
Qed.

(** X7. The samples depend on a unit's [Name] and [ActiveState] only: two
    listings that agree on these two fields, unit by unit, give the same
    run, whatever their descriptions, load states and sub-states. *)
Theorem collectUnitStatusMetrics_reads_two_fields units1 units2 s :
  map read_fields units1 = map read_fields units2 ->
  collectUnitStatusMetrics units1 s = collectUnitStatusMetrics units2 s.
Proof.
  unfold collectUnitStatusMetrics.
  revert units2 s. induction units1 as [|u1 units1 IH]; intros [|u2 units2] s H;
    try discriminate H; [reflexivity|].
  cbn [map] in H. injection H as Hn Ha Hrest.
  cbn [range]. rewrite Hn, Ha.
  apply bind_cong. intros _ s1. now apply IH.
Qed.

Lemma collectUnitStatusMetrics_reads_two_fields_example :
  let s := example_state (example_manager [] [] None "" None) in
  collectUnitStatusMetrics
    [{| dbus.Name := "sshd.service"; dbus.Description := "OpenSSH server";
        dbus.LoadState := "loaded"; dbus.ActiveState := "active";
        dbus.SubState := "running" |}] s =
  collectUnitStatusMetrics
    [{| dbus.Name := "sshd.service"; dbus.Description := "";
        dbus.LoadState := "masked"; dbus.ActiveState := "active";
        dbus.SubState := "exited" |}] s.
Proof.
  apply (collectUnitStatusMetrics_reads_two_fields
           [{| dbus.Name := "sshd.service"; dbus.Description := "OpenSSH server";
               dbus.LoadState := "loaded"; dbus.ActiveState := "active";
               dbus.SubState := "running" |}]
           [{| dbus.Name := "sshd.service"; dbus.Description := "";
               dbus.LoadState := "masked"; dbus.ActiveState := "active";
               dbus.SubState := "exited" |}]).
  reflexivity.
Defined.

(** ** Labels and names *)

Lemma block_labels_NoDup (name : string) :
  NoDup (map (fun stateName => [name; stateName]) unitStatesName).
Proof.
  cbn. repeat constructor; cbn; intuition discriminate.
Qed.

Lemma unit_labels_NoDup units :
  NoDup (map dbus.Name units) ->
  NoDup (flat_map (fun unit => map (fun stateName => [dbus.Name unit; stateName])
                                   unitStatesName) units).
Proof.
  induction units as [|unit units IH]; intros Hnd; [constructor|].
  cbn [map] in Hnd. apply NoDup_cons_iff in Hnd as [Hfresh Hnd].
  cbn [flat_map]. apply NoDup_app.
  - apply block_labels_NoDup.
  - now apply IH.
  - intros labels Hblock Hrest.
    apply in_map_iff in Hblock as (stateName & <- & _).
    apply in_flat_map in Hrest as (unit' & Hin & Hl).
    apply in_map_iff in Hl as (stateName' & E & _).
    injection E as En _. apply Hfresh. rewrite <- En. now apply in_map.
Qed.

(** X8. When the listed units have distinct names, no two unit-state
    samples of a listing carry the same label values, and none carries the
    empty label values of the system-running sample. *)
Theorem unit_samples_distinct_labels s units :
  length (prometheus.variableLabels (unitDesc (self s))) = 2 ->
  NoDup (map dbus.Name units) ->
  exists ms,
    collectUnitStatusMetrics units s = (Returned tt, emit ms s) /\
    NoDup (map prometheus.labelValues ms) /\
    Forall (fun m => prometheus.labelValues m <> []) ms.
Proof.
  intros H Hnd. exists (flat_map (unit_state_samples (unitDesc (self s))) units).
  split; [now apply collectUnitStatusMetrics_run|].
  split; [rewrite labels_of_unit_samples; now apply unit_labels_NoDup|].
  apply Forall_forall. intros m Hin.
  apply in_flat_map in Hin as (unit & _ & Hm).
  unfold unit_state_samples in Hm. apply in_map_iff in Hm as (stateName & <- & _).
  discriminate.
Qed.

Lemma unit_samples_distinct_labels_example :
  let s := example_state (example_manager [] [] None "" None) in
  exists ms,
    collectUnitStatusMetrics example_units s = (Returned tt, emit ms s) /\
    NoDup (map prometheus.labelValues ms) /\
    Forall (fun m => prometheus.labelValues m <> []) ms.
Proof.
  apply (unit_samples_distinct_labels
           (example_state (example_manager [] [] None "" None)) example_units).
  - reflexivity.
  - cbn. repeat constructor; cbn; intuition discriminate.
Defined.

Lemma append_same_prefix (p a b : string) : (p ++ a)%string = (p ++ b)%string -> a = b.
Proof.
  induction p as [|c p IH]; cbn; intros H; [exact H|].
  injection H as H. now apply IH.
Qed.

(** X6. [NewSystemdCollector] never fails. For every namespace it builds
    a unit-state descriptor with the labels name and state and a
    system-running descriptor without labels, named after the namespace and
    the subsystem systemd (after the subsystem alone when the namespace is
    empty); the two names are never the same. *)
Theorem NewSystemdCollector_descriptors Namespace :
  let c := fst (NewSystemdCollector Namespace) in
  snd (NewSystemdCollector Namespace) = None /\
  prometheus.fqName (unitDesc c) =
    (if String.eqb Namespace "" then "systemd_unit_state"
     else Namespace ++ "_systemd_unit_state")%string /\
  prometheus.fqName (systemRunningDesc c) =
    (if String.eqb Namespace "" then "systemd_system_running"
     else Namespace ++ "_systemd_system_running")%string /\
  prometheus.fqName (unitDesc c) <> prometheus.fqName (systemRunningDesc c) /\
  prometheus.variableLabels (unitDesc c) = ["name"; "state"] /\
  prometheus.variableLabels (systemRunningDesc c) = [] /\
  prometheus.constLabels (unitDesc c) = [] /\
  prometheus.constLabels (systemRunningDesc c) = [].
Proof.
  cbv zeta. split; [reflexivity|].
  unfold NewSystemdCollector, prometheus.NewDesc, prometheus.BuildFQName, subsystem.
  cbn [fst unitDesc systemRunningDesc prometheus.fqName prometheus.variableLabels
       prometheus.constLabels].
  destruct Namespace as [|c ns]; cbn -[append].
  - repeat split. discriminate.
  - repeat split. cbn. intros H. injection H as H.
    apply append_same_prefix in H. discriminate H.
Qed.

(** ** Connections over several runs *)

Lemma held_app tr tr' open : held (tr ++ tr') open = held tr' (held tr open).
Proof.
  revert open. induction tr as [|e tr IH]; intros open; [reflexivity|].
  cbn [app held]. apply IH.
Qed.

(** X9. [Update] keeps the bus free of open connections: started when
    every connection opened so far has been closed, it ends, in every run,
    with every connection closed again. *)
Theorem Update_leaves_no_connection_open s :
  held (dbus.history (bus s)) [] = [] ->
  held (dbus.history (bus (snd (Update s)))) [] = [].
Proof.
  intros H. destruct (Update_calls s) as (tr & Hh & Hc).
  rewrite Hh, held_app, H.
  exact (proj1 (proj2 (cycle_calls_scoped _ _ Hc))).
Qed.

Lemma Update_leaves_no_connection_open_example :
  let s := snd (Update (example_state
                          (example_manager [3] example_units None "degraded" None))) in
  held (dbus.history (bus (snd (Update s)))) [] = [].
Proof.
  apply (Update_leaves_no_connection_open
           (snd (Update (example_state
                           (example_manager [3] example_units None "degraded" None))))).
  reflexivity.
Defined.
